(** * vix_alert.py: VIX against its EWMA, reported over Telegram

    A shallow embedding of [vix_alert.py] and the properties of its
    smoothing, classification, message, retry loops and exit codes.

    Conventions of the model.
    - The smoothing is modelled twice.  In [B64] a Python float is a
      binary64 number and every operation rounds as the processor does; the
      statements about the numbers the program computes are made there.
      Elsewhere a float is an [option Q]: [None] is NaN, [Some q] a finite
      value, arithmetic is exact and equalities are stated up to [Qeq];
      the statements about gaps, rows, text and control flow are made there.
      [exact_value] takes a binary64 number to the rational it stands for.
    - A pandas Series is the list of its (index label, value) rows.
    - The outside world (Yahoo download, HTTP POST, environment variables) is
      an [Env] of answers indexed by call number; what the program does to it
      (logs, sleeps, calls) is recorded in a chronological list of [Event]s.
    - A Python exception is a value of [exn]; a function that can raise
      returns [exn + A] next to the state it left behind. *)

From Stdlib Require Import PrimFloat.
From Stdlib Require FloatOps SpecFloat FloatAxioms.
From Stdlib Require Import List String Ascii NArith ZArith QArith Qabs Qfield.
From Stdlib Require Import Lia Lqa Bool Arith.
From Stdlib Require Import DecimalString DecimalN.
Import ListNotations.

Local Open Scope string_scope.

(** ** Floats, timestamps and series *)

Definition float := option Q.

Definition NaN : float := None.

(** [x == x] on a float: false exactly on NaN. *)
Definition is_observation (x : float) : bool :=
  match x with Some _ => true | None => false end.

(** Equality of floats up to the representation of the rational. *)
Definition float_eq (x y : float) : Prop :=
  match x, y with
  | Some a, Some b => a == b
  | None, None => True
  | _, _ => False
  end.

Record Timestamp := mkTimestamp { year : N; month : N; day : N }.

Definition Series := list (Timestamp * float).

Definition index (s : Series) : list Timestamp := map fst s.
Definition values (s : Series) : list float := map snd s.

Record exn := mkExn { exn_class : string; exn_text : string }.

(** [str(e)] *)
Definition str_exn (e : exn) : string := exn_text e.

Definition RuntimeError (msg : string) : exn := mkExn "RuntimeError" msg.
Definition ValueError (msg : string) : exn := mkExn "ValueError" msg.
Definition AttributeError (msg : string) : exn := mkExn "AttributeError" msg.

(** ** The smoothing engine

    [series.ewm(alpha=alpha, adjust=False).mean()] with the defaults
    [ignore_na=False], [min_periods=0], no [times].  pandas checks
    [0 < alpha <= 1], turns alpha into a centre of mass, raises the minimum
    number of observations from 0 to 1, and runs its windowed kernel over
    the values, which recomputes alpha from the centre of mass and carries
    (weighted, old_wt, nobs) along the values. *)

Definition get_center_of_mass (alpha : Q) : exn + Q :=
  if Qle_bool alpha 0 || negb (Qle_bool alpha 1)
  then inl (ValueError "alpha must satisfy: 0 < alpha <= 1")
  else inr ((1 - alpha) / alpha).

Record ewm_state := mkEwm { weighted : float; old_wt : Q; nobs : nat }.

Definition ewm_minp : nat := 1.

Definition ewm_output (st : ewm_state) : float :=
  if (ewm_minp <=? nobs st)%nat then weighted st else NaN.

(** One turn of the kernel's loop, in the branch taken for adjust=False,
    ignore_na=False, normalize=True.  When the centre of mass is 1 the kernel
    takes [1 - old_wt] as the weight of the new value; that weight is set
    before each use, so it needs no place in the state. *)
Definition ewm_step (com old_wt_factor new_wt : Q) (st : ewm_state)
  (cur : float) : ewm_state :=
  let nobs' := (nobs st + (if is_observation cur then 1 else 0))%nat in
  match weighted st with
  | Some w =>
      let ow := old_wt st * old_wt_factor in
      match cur with
      | Some c =>
          let w' :=
            if Qeq_bool w c then w
            else
              let nw := if Qeq_bool com 1 then 1 - ow else new_wt in
              (ow * w + nw * c) / (ow + nw) in
          mkEwm (Some w') 1 nobs'
      | None => mkEwm (Some w) ow nobs'
      end
  | None =>
      match cur with
      | Some c => mkEwm (Some c) (old_wt st) nobs'
      | None => mkEwm None (old_wt st) nobs'
      end
  end.

Fixpoint ewm_loop (com old_wt_factor new_wt : Q) (st : ewm_state)
  (vals : list float) : list float :=
  match vals with
  | [] => []
  | cur :: rest =>
      let st' := ewm_step com old_wt_factor new_wt st cur in
      ewm_output st' :: ewm_loop com old_wt_factor new_wt st' rest
  end.

Definition ewm_kernel (com : Q) (vals : list float) : list float :=
  match vals with
  | [] => []
  | v0 :: rest =>
      let alpha := 1 / (1 + com) in
      let old_wt_factor := 1 - alpha in
      let new_wt := alpha in
      let st0 := mkEwm v0 1 (if is_observation v0 then 1 else 0) in
      ewm_output st0 :: ewm_loop com old_wt_factor new_wt st0 rest
  end.

(** The result carries the index of the input. *)
Definition ewm_mean (series : Series) (alpha : Q) : exn + Series :=
  match get_center_of_mass alpha with
  | inl e => inl e
  | inr com => inr (combine (index series) (ewm_kernel com (values series)))
  end.

Definition default_lambda : Q := 97 # 100.

Definition compute_ewma (series : Series) (lambda_ : Q) : exn + Series :=
  let alpha := 1 - lambda_ in
  ewm_mean series alpha.

(** ** Text: decimal numerals, padding, substring search *)

Definition nl : string := String (ascii_of_nat 10) EmptyString.

Definition string_of_nat (n : nat) : string :=
  NilZero.string_of_uint (Nat.to_uint n).

Definition string_of_N (n : N) : string :=
  NilZero.string_of_uint (N.to_uint n).

Fixpoint zeros (n : nat) : string :=
  match n with
  | O => EmptyString
  | S k => String "0" (zeros k)
  end.

(** Left padding with zeros, as [%02d] does. *)
Definition zfill (width : nat) (s : string) : string :=
  zeros (width - String.length s) ++ s.

(** Python's [needle in hay] on strings. *)
Fixpoint contains (needle hay : string) : bool :=
  prefix needle hay ||
  match hay with
  | EmptyString => false
  | String _ rest => contains needle rest
  end.

Fixpoint occurs (c : ascii) (s : string) : bool :=
  match s with
  | EmptyString => false
  | String d rest => Ascii.eqb c d || occurs c rest
  end.

Definition is_digit (c : ascii) : bool :=
  let n := nat_of_ascii c in (48 <=? n)%nat && (n <=? 57)%nat.

Fixpoint all_chars (p : ascii -> bool) (s : string) : bool :=
  match s with
  | EmptyString => true
  | String c rest => p c && all_chars p rest
  end.

(** [ts.strftime("%Y-%m-%d")]; pandas timestamps lie between the years 1677
    and 2262, where [%Y] has four digits. *)
Definition strftime_Ymd (ts : Timestamp) : string :=
  string_of_N (year ts) ++ "-" ++ zfill 2 (string_of_N (month ts))
    ++ "-" ++ zfill 2 (string_of_N (day ts)).

(** The shape YYYY-MM-DD: ten characters, digits around two dashes. *)
Definition is_Ymd (s : string) : bool :=
  match s with
  | String y1 (String y2 (String y3 (String y4 (String d1
      (String m1 (String m2 (String d2
        (String a1 (String a2 EmptyString))))))))) =>
      is_digit y1 && is_digit y2 && is_digit y3 && is_digit y4
      && Ascii.eqb d1 "-" && is_digit m1 && is_digit m2
      && Ascii.eqb d2 "-" && is_digit a1 && is_digit a2
  | _ => false
  end.

(** ** [format(x, ".2f")]

    The value is rounded to the nearest hundredth, ties to the even
    neighbour, and printed with a sign, the integer digits, a point and two
    decimals. *)

Definition round_half_even (num : Z) (den : positive) : Z :=
  let f := (num / Zpos den)%Z in
  let r := (num mod Zpos den)%Z in
  match (2 * r ?= Zpos den)%Z with
  | Lt => f
  | Gt => (f + 1)%Z
  | Eq => if Z.even f then f else (f + 1)%Z
  end.

(** Hundredths of the absolute value, rounded. *)
Definition cents (q : Q) : Z :=
  round_half_even (Z.abs (Qnum q) * 100) (Qden q).

Definition render_cents (n : Z) : string :=
  string_of_N (Z.to_N (n / 100)) ++ "."
    ++ zfill 2 (string_of_N (Z.to_N (n mod 100))).

Definition format_2f (x : float) : string :=
  match x with
  | None => "nan"
  | Some q =>
      (if (Qnum q <? 0)%Z then "-" else EmptyString) ++ render_cents (cents q)
  end.

(** ** Decision and message *)

Definition status_above : string :=
  "🔴 VIX ABOVE EWMA — Risk conditions elevated.".

Definition status_below : string :=
  "🟢 VIX BELOW EWMA — Favorable for short-vol trades (per Sinclair).".

Definition create_message (date_str : string) (vix_val ewma_val : float)
  (above : Z) : string :=
  let status := if (above =? 0)%Z then status_below else status_above in
  "📅 " ++ date_str ++ nl ++ "VIX: " ++ format_2f vix_val ++ nl
    ++ "EWMA(λ=0.97): " ++ format_2f ewma_val ++ nl ++ nl ++ status.

(** [x > y] on floats: false as soon as one side is NaN. *)
Definition float_gt (x y : float) : bool :=
  match x, y with
  | Some a, Some b => negb (Qle_bool a b)
  | _, _ => false
  end.

(** [int(b)] *)
Definition int_of_bool (b : bool) : Z := if b then 1%Z else 0%Z.

(** ** Frames *)

(** What [yf.download] hands back: column names and, per index label, one
    cell per column. *)
Record DataFrame := mkFrame {
  df_columns : list string;
  df_rows : list (Timestamp * list float)
}.

(** [df.empty]: one of the two axes has length zero. *)
Definition df_empty (df : DataFrame) : bool :=
  match df_columns df, df_rows df with
  | [], _ => true
  | _, [] => true
  | _, _ => false
  end.

(** [name in df.columns] *)
Definition in_columns (name : string) (df : DataFrame) : bool :=
  existsb (String.eqb name) (df_columns df).

Fixpoint column_position (name : string) (cols : list string) : nat :=
  match cols with
  | [] => O
  | c :: rest => if String.eqb name c then O else S (column_position name rest)
  end.

(** [df[name]] for a column that is present. *)
Definition getitem (df : DataFrame) (name : string) : Series :=
  let k := column_position name (df_columns df) in
  map (fun row => (fst row, nth k (snd row) NaN)) (df_rows df).

(** The two-column frame of [main], columns VIX and VIX_EWMA. *)
Definition Joined := list (Timestamp * (float * float)).

(** [pd.concat([a, b], axis=1)] for two series over the same index, which is
    how [main] calls it: the rows are paired in order, and a label without a
    partner gets NaN. *)
Fixpoint concat_axis1 (a b : Series) : Joined :=
  match a with
  | [] => map (fun r => (fst r, (NaN, snd r))) b
  | (t, x) :: a' =>
      match b with
      | [] => (t, (x, NaN)) :: concat_axis1 a' []
      | (_, y) :: b' => (t, (x, y)) :: concat_axis1 a' b'
      end
  end.

Definition row_defined (row : Timestamp * (float * float)) : bool :=
  is_observation (fst (snd row)) && is_observation (snd (snd row)).

(** [df.dropna()] *)
Definition dropna (df : Joined) : Joined := filter row_defined df.

(** [df.iloc[-1]], which raises IndexError on an empty frame. *)
Definition iloc_last (df : Joined) : exn + (Timestamp * (float * float)) :=
  match rev df with
  | [] => inl (mkExn "IndexError" "single positional indexer is out-of-bounds")
  | row :: _ => inr row
  end.

(** ** The world and the effects of the program *)

Inductive Level := INFO | WARNING | ERROR.

Inductive Event :=
| EvLog (lvl : Level) (msg : string)
| EvSleep (seconds : nat)
| EvDownload (ticker start : string)
| EvPost (url chat_id text : string).

(** A [requests] response, as far as the program looks at it:
    [raise_for_status] is what [r.raise_for_status()] raises, if anything,
    and [json] what [r.json()] returns or raises. *)
Record Response := mkResponse {
  status_code : nat;
  raise_for_status : option exn;
  json : exn + string
}.

(** One run's surroundings: the environment variables, and the outcome of
    the n-th call to [yf.download] and to [requests.post]. *)
Record Env := mkEnv {
  getenv : string -> option string;
  yf_download : nat -> exn + DataFrame;
  requests_post : nat -> exn + Response
}.

Record World := mkWorld {
  downloads : nat;
  posts : nat;
  trace : list Event
}.

Definition world0 : World := mkWorld 0 0 [].

Definition M (A : Type) : Type := World -> (exn + A) * World.

Definition ret {A} (a : A) : M A := fun w => (inr a, w).

Definition raise {A} (e : exn) : M A := fun w => (inl e, w).

Definition bind {A B} (c : M A) (k : A -> M B) : M B :=
  fun w =>
    match c w with
    | (inr a, w') => k a w'
    | (inl e, w') => (inl e, w')
    end.

(** [try: body except Exception as e: handler e] *)
Definition try_except {A} (body : M A) (handler : exn -> M A) : M A :=
  fun w =>
    match body w with
    | (inr a, w') => (inr a, w')
    | (inl e, w') => handler e w'
    end.

Definition lift {A} (r : exn + A) : M A := fun w => (r, w).

Declare Scope py_scope.
Delimit Scope py_scope with py.
Notation "x <- c ;; k" := (bind c (fun x => k))
  (at level 61, c at next level, right associativity) : py_scope.
Notation "c ;; k" := (bind c (fun _ => k))
  (at level 61, right associativity) : py_scope.
Local Open Scope py_scope.

Definition emit (ev : Event) : M unit :=
  fun w => (inr tt, mkWorld (downloads w) (posts w) (trace w ++ [ev])).

Definition log (lvl : Level) (msg : string) : M unit := emit (EvLog lvl msg).

Definition sleep (seconds : nat) : M unit := emit (EvSleep seconds).

Definition download (env : Env) (ticker start : string) : M DataFrame :=
  fun w =>
    (yf_download env (downloads w),
     mkWorld (S (downloads w)) (posts w) (trace w ++ [EvDownload ticker start])).

Definition post (env : Env) (url chat_id text : string) : M Response :=
  fun w =>
    (requests_post env (posts w),
     mkWorld (downloads w) (S (posts w)) (trace w ++ [EvPost url chat_id text])).

(** ** Module constants *)

Definition RETRIES : nat := 3.
Definition RETRY_DELAY : nat := 5.

Definition DEFAULT_START (env : Env) : string :=
  match getenv env "START_DATE" with
  | Some s => s
  | None => "2010-01-01"
  end.

(** [range(1, RETRIES + 1)] *)
Definition attempts : list nat := seq 1 RETRIES.

(** ** fetch_vix *)

(** The body of the [try]. *)
Definition fetch_try (env : Env) (start_date : string) : M Series :=
  log INFO ("Downloading VIX data (start=" ++ start_date ++ ")...") ;;
  df <- download env "^VIX" start_date ;;
  if df_empty df || negb (in_columns "Close" df)
  then raise (RuntimeError "VIX data missing 'Close' or empty")
  else
    log INFO ("Downloaded " ++ string_of_nat (List.length (df_rows df)) ++ " rows") ;;
    ret (getitem df "Close").

(** The [for] loop: [Some r] when an iteration returned [r], [None] when the
    loop ran off its end (and the function returns Python's None). *)
Fixpoint fetch_loop (env : Env) (start_date : string) (todo : list nat)
  : M (option Series) :=
  match todo with
  | [] => ret None
  | attempt :: rest =>
      r <- try_except
             (s <- fetch_try env start_date ;; ret (Some s))
             (fun e =>
                log WARNING ("Attempt " ++ string_of_nat attempt
                             ++ ": failed to download VIX: " ++ str_exn e) ;;
                if (attempt <? RETRIES)%nat
                then sleep (RETRY_DELAY * attempt) ;; ret None
                else raise e) ;;
      match r with
      | Some s => ret (Some s)
      | None => fetch_loop env start_date rest
      end
  end.

Definition fetch_vix (env : Env) (start_date : string) : M (option Series) :=
  fetch_loop env start_date attempts.

(** ** send_telegram *)

Definition telegram_url (bot_token : string) : string :=
  "https://api.telegram.org/bot" ++ bot_token ++ "/sendMessage".

Definition send_try (env : Env) (url chat_id text : string) : M string :=
  r <- post env url chat_id text ;;
  match raise_for_status r with
  | Some e => raise e
  | None =>
      log INFO ("Telegram message sent (status_code="
                ++ string_of_nat (status_code r) ++ ")") ;;
      lift (json r)
  end.

Fixpoint send_loop (env : Env) (url chat_id text : string) (todo : list nat)
  : M (option string) :=
  match todo with
  | [] => ret None
  | attempt :: rest =>
      r <- try_except
             (j <- send_try env url chat_id text ;; ret (Some j))
             (fun e =>
                log WARNING ("Attempt " ++ string_of_nat attempt
                             ++ ": failed to send Telegram message: "
                             ++ str_exn e) ;;
                if (attempt <? RETRIES)%nat
                then sleep (RETRY_DELAY * attempt) ;; ret None
                else raise e) ;;
      match r with
      | Some j => ret (Some j)
      | None => send_loop env url chat_id text rest
      end
  end.

Definition send_telegram (env : Env) (bot_token chat_id text : string)
  : M (option string) :=
  send_loop env (telegram_url bot_token) chat_id text attempts.

(** ** main *)

(** Lines 87 to 91: the latest row as (date_str, vix_val, ewma_val, above). *)
Definition observe (latest : Timestamp * (float * float))
  : string * float * float * Z :=
  let date_str := strftime_Ymd (fst latest) in
  let vix_val := fst (snd latest) in
  let ewma_val := snd (snd latest) in
  let above := int_of_bool (float_gt vix_val ewma_val) in
  (date_str, vix_val, ewma_val, above).

(** Lines 81 to 93: from the fetched series and its EWMA to the message. *)
Definition prepare (vix vix_ewma : Series) : exn + (string * string) :=
  let df := dropna (concat_axis1 vix vix_ewma) in
  match df with
  | [] => inl (RuntimeError "Resulting DataFrame empty after dropping NA")
  | _ :: _ =>
      match iloc_last df with
      | inl e => inl e
      | inr latest =>
          let '(date_str, vix_val, ewma_val, above) := observe latest in
          inr (date_str, create_message date_str vix_val ewma_val above)
      end
  end.

(** The body of the [try] of [main]. *)
Definition main_try (env : Env) (bot_token chat_id : string) : M unit :=
  fetched <- fetch_vix env (DEFAULT_START env) ;;
  match fetched with
  | None => raise (AttributeError "'NoneType' object has no attribute 'ewm'")
  | Some vix =>
      vix_ewma <- lift (compute_ewma vix default_lambda) ;;
      dm <- lift (prepare vix vix_ewma) ;;
      log INFO ("Prepared message for " ++ fst dm) ;;
      send_telegram env bot_token chat_id (snd dm) ;;
      log INFO "Done"
  end.

Definition failure_text (e : exn) : string :=
  "⚠️ VIX alert failed: " ++ str_exn e.

(** The [except] of [main]; it ends in [sys.exit(1)]. *)
Definition main_except (env : Env) (bot_token chat_id : string) (e : exn)
  : World -> nat * World :=
  fun w =>
    let '(_, w1) := log ERROR "Unhandled error in vix_alert" w in
    let '(_, w2) :=
      try_except
        (send_telegram env bot_token chat_id (failure_text e) ;; ret tt)
        (fun _ => log ERROR "Also failed to send failure message to Telegram")
        w1 in
    (1%nat, w2).

(** [not s] for the result of [os.getenv]: None and the empty string. *)
Definition missing (s : option string) : bool :=
  match s with
  | Some (String _ _) => false
  | _ => true
  end.

Definition env_string (s : option string) : string :=
  match s with
  | Some v => v
  | None => EmptyString
  end.

(** The process: its exit code and the world it leaves. *)
Definition main (env : Env) : World -> nat * World :=
  fun w =>
    let bot_token := getenv env "TELEGRAM_BOT_TOKEN" in
    let chat_id := getenv env "TELEGRAM_CHAT_ID" in
    if missing bot_token || missing chat_id
    then
      let '(_, w') :=
        log ERROR
          "Missing TELEGRAM_BOT_TOKEN or TELEGRAM_CHAT_ID environment variables"
          w in
      (2%nat, w')
    else
      match main_try env (env_string bot_token) (env_string chat_id) w with
      | (inr _, w') => (0%nat, w')
      | (inl e, w') =>
          main_except env (env_string bot_token) (env_string chat_id) e w'
      end.

(** ** The smoothing engine in binary64

    The same kernel on the machine's numbers, operation for operation: a
    value is a binary64 float, [x == x] tells NaN apart, and every sum,
    product and quotient is rounded as the processor rounds it.  This is the
    arithmetic the program runs; the kernel above is its reading in exact
    arithmetic. *)

Module B64.

Local Open Scope float_scope.
#[local] Set Warnings "-inexact-float".

Definition Series := list (Timestamp * PrimFloat.float).

Definition index (s : Series) : list Timestamp := map fst s.
Definition values (s : Series) : list PrimFloat.float := map snd s.

(** [x == x] *)
Definition is_observation (x : PrimFloat.float) : bool := PrimFloat.eqb x x.

Definition get_center_of_mass (alpha : PrimFloat.float)
  : exn + PrimFloat.float :=
  if PrimFloat.leb alpha 0 || PrimFloat.ltb 1 alpha
  then inl (ValueError "alpha must satisfy: 0 < alpha <= 1")
  else inr ((1 - alpha) / alpha).

Record ewm_state := mkEwm {
  weighted : PrimFloat.float;
  old_wt : PrimFloat.float;
  nobs : nat
}.

Definition ewm_output (st : ewm_state) : PrimFloat.float :=
  if (ewm_minp <=? nobs st)%nat then weighted st else nan.

Definition ewm_step (com old_wt_factor new_wt : PrimFloat.float)
  (st : ewm_state) (cur : PrimFloat.float) : ewm_state :=
  let nobs' := (nobs st + (if is_observation cur then 1 else 0))%nat in
  if is_observation (weighted st) then
    let ow := old_wt st * old_wt_factor in
    if is_observation cur then
      let w' :=
        if PrimFloat.eqb (weighted st) cur then weighted st
        else
          let nw := if PrimFloat.eqb com 1 then 1 - ow else new_wt in
          (ow * weighted st + nw * cur) / (ow + nw) in
      mkEwm w' 1 nobs'
    else mkEwm (weighted st) ow nobs'
  else
    if is_observation cur then mkEwm cur (old_wt st) nobs'
    else mkEwm (weighted st) (old_wt st) nobs'.

Fixpoint ewm_loop (com old_wt_factor new_wt : PrimFloat.float)
  (st : ewm_state) (vals : list PrimFloat.float) : list PrimFloat.float :=
  match vals with
  | [] => []
  | cur :: rest =>
      let st' := ewm_step com old_wt_factor new_wt st cur in
      ewm_output st' :: ewm_loop com old_wt_factor new_wt st' rest
  end.

Definition ewm_kernel (com : PrimFloat.float) (vals : list PrimFloat.float)
  : list PrimFloat.float :=
  match vals with
  | [] => []
  | v0 :: rest =>
      let alpha := 1 / (1 + com) in
      let old_wt_factor := 1 - alpha in
      let new_wt := alpha in
      let st0 := mkEwm v0 1 (if is_observation v0 then 1 else 0)%nat in
      ewm_output st0 :: ewm_loop com old_wt_factor new_wt st0 rest
  end.

Definition ewm_mean (series : Series) (alpha : PrimFloat.float)
  : exn + Series :=
  match get_center_of_mass alpha with
  | inl e => inl e
  | inr com => inr (combine (index series) (ewm_kernel com (values series)))
  end.

(** The literal [0.97]: the binary64 number nearest to it. *)
Definition default_lambda : PrimFloat.float := 0.97.

Definition compute_ewma (series : Series) (lambda_ : PrimFloat.float)
  : exn + Series :=
  let alpha := 1 - lambda_ in
  ewm_mean series alpha.


(** [x > y] *)
Definition float_gt (x y : PrimFloat.float) : bool := PrimFloat.ltb y x.



(** Scenario A and the series the contract promises for it. *)
Definition scenario_A (t1 t2 t3 : Timestamp) : Series :=
  [(t1, 20); (t2, 22); (t3, 18)].

Definition scenario_A_promised : list PrimFloat.float := [20; 20.06; 19.9982].

Definition scenario_A_smoothed : list PrimFloat.float :=
  [20; 20.06; 19.998199999999997].



End B64.

(** The rational number a binary64 float stands for; NaN has none, and
    neither have the infinities, which the exact part of the model does not
    tell from NaN. *)
Definition exact_value (x : PrimFloat.float) : float :=
  match FloatOps.Prim2SF x with
  | SpecFloat.S754_zero _ => Some 0
  | SpecFloat.S754_finite s m e =>
      Some (inject_Z (if s then Zneg m else Zpos m) * Qpower 2 e)
  | _ => None
  end.

Definition exact_series (s : B64.Series) : Series :=
  map (fun row => (fst row, exact_value (snd row))) s.

(** ** Vocabulary of the statements *)

Local Open Scope list_scope.

(** NaN-propagating product and sum, as Python computes them. *)
Definition fmul (a : Q) (x : float) : float :=
  match x with
  | Some b => Some (a * b)
  | None => None
  end.

Definition fadd (x y : float) : float :=
  match x, y with
  | Some a, Some b => Some (a + b)
  | _, _ => None
  end.

Definition all_defined (s : Series) : bool :=
  forallb is_observation (values s).

(** The recurrence of the smoothing contract, read on the values: same
    length, first output equal to the first input, and every later output
    equal to alpha * input + (1 - alpha) * previous output. *)
Definition ewma_recurrence (alpha : Q) (inp out : list float) : Prop :=
  List.length out = List.length inp /\
  nth 0 out NaN = nth 0 inp NaN /\
  forall i, (0 < i < List.length inp)%nat ->
    float_eq (nth i out NaN)
      (fadd (fmul alpha (nth i inp NaN))
            (fmul (1 - alpha) (nth (i - 1) out NaN))).



(** Calls and sleeps, without the log lines. *)
Definition is_io (ev : Event) : bool :=
  match ev with
  | EvLog _ _ => false
  | _ => true
  end.

Definition io_trace (w : World) : list Event := filter is_io (trace w).

(** What an answer of [yf.download] makes of an attempt of [fetch_vix]: the
    exception the attempt ends with, if any, and the series it returns
    otherwise. *)
Definition fetch_error (r : exn + DataFrame) : option exn :=
  match r with
  | inl e => Some e
  | inr df =>
      if df_empty df || negb (in_columns "Close" df)
      then Some (RuntimeError "VIX data missing 'Close' or empty")
      else None
  end.

Definition fetch_value (r : exn + DataFrame) : Series :=
  match r with
  | inr df => getitem df "Close"
  | inl _ => []
  end.

(** The same for an answer of [requests.post] and an attempt of
    [send_telegram]. *)
Definition send_error (r : exn + Response) : option exn :=
  match r with
  | inl e => Some e
  | inr resp =>
      match raise_for_status resp with
      | Some e => Some e
      | None =>
          match json resp with
          | inl e => Some e
          | inr _ => None
          end
      end
  end.

Definition send_value (r : exn + Response) : string :=
  match r with
  | inr resp =>
      match json resp with
      | inr j => j
      | inl _ => EmptyString
      end
  | inl _ => EmptyString
  end.

(** The retry policy, read on the answers to the calls number [n], [n+1] and
    [n+2]: the result [r], the number of calls [used], and the calls and
    sleeps [io] in order. *)
Definition retry_outcome {A} (call : Event) (err : nat -> option exn)
  (val : nat -> A) (n : nat) (r : exn + option A) (used : nat)
  (io : list Event) : Prop :=
  match err n, err (S n), err (S (S n)) with
  | None, _, _ =>
      r = inr (Some (val n)) /\ used = 1%nat /\ io = [call]
  | Some _, None, _ =>
      r = inr (Some (val (S n))) /\ used = 2%nat /\
      io = [call; EvSleep 5; call]
  | Some _, Some _, None =>
      r = inr (Some (val (S (S n)))) /\ used = 3%nat /\
      io = [call; EvSleep 5; call; EvSleep 10; call]
  | Some _, Some _, Some e3 =>
      r = inl e3 /\ used = 3%nat /\
      io = [call; EvSleep 5; call; EvSleep 10; call]
  end.

(** One call of [send_telegram] with the failure text of [e], from [w1] to
    [w2]: between one and three POSTs of that text, under the retry policy,
    and no download. *)
Definition failure_notified (env : Env) (bot_token chat_id : string)
  (e : exn) (w1 w2 : World) : Prop :=
  exists r used io,
    retry_outcome (EvPost (telegram_url bot_token) chat_id (failure_text e))
      (fun k => send_error (requests_post env k))
      (fun k => send_value (requests_post env k))
      (posts w1) r used io /\
    io_trace w2 = io_trace w1 ++ io /\
    posts w2 = (posts w1 + used)%nat /\
    downloads w2 = downloads w1 /\
    (forall x, r = inl x ->
       exists t, trace w2 =
         t ++ [EvLog ERROR "Also failed to send failure message to Telegram"]).

Definition credentials_missing (env : Env) : bool :=
  missing (getenv env "TELEGRAM_BOT_TOKEN")
  || missing (getenv env "TELEGRAM_CHAT_ID").

Definition bot_token_of (env : Env) : string :=
  env_string (getenv env "TELEGRAM_BOT_TOKEN").

Definition chat_id_of (env : Env) : string :=
  env_string (getenv env "TELEGRAM_CHAT_ID").

(** The shape of a number printed with two decimals: an optional minus
    sign, at least one digit, a point, exactly two digits. *)
Fixpoint digits_point_two (s : string) (seen : bool) : bool :=
  match s with
  | EmptyString => false
  | String c rest =>
      if is_digit c then digits_point_two rest true
      else if Ascii.eqb c "."
           then seen &&
                match rest with
                | String a (String b EmptyString) => is_digit a && is_digit b
                | _ => false
                end
           else false
  end.

Definition is_2f (s : string) : bool :=
  match s with
  | EmptyString => false
  | String c rest =>
      if Ascii.eqb c "-" then digits_point_two rest false
      else digits_point_two s false
  end.

(** The characters of dates and numbers. *)
Definition is_plain (c : ascii) : bool :=
  is_digit c || Ascii.eqb c "-" || Ascii.eqb c ".".

(** ** Scenarios *)

(** Scenario A: three closes on three days. *)
Definition scenario_A (t1 t2 t3 : Timestamp) : Series :=
  [(t1, Some (20 # 1)); (t2, Some (22 # 1)); (t3, Some (18 # 1))].

Definition jan (d : N) : Timestamp := mkTimestamp 2024 1 d.

(** [str.lower] on the characters of the messages: an ASCII capital becomes
    its small letter, and the digits, signs and symbols stay. *)
Definition lower_ascii (c : ascii) : ascii :=
  let n := nat_of_ascii c in
  if (65 <=? n)%nat && (n <=? 90)%nat then ascii_of_nat (n + 32) else c.

Fixpoint lower (s : string) : string :=
  match s with
  | EmptyString => EmptyString
  | String c rest => String (lower_ascii c) (lower rest)
  end.

(** Scenario A as the specification words it: the three promised numbers,
    compared as binary64 numbers compare, and a message that says below,
    in capitals or not. *)
Definition scenario_A_claim (s : B64.Series) : Prop :=
  exists out date_str message,
    B64.compute_ewma s B64.default_lambda = inr out /\
    Forall2 (fun x y => PrimFloat.eqb x y = true)
      (B64.values out) B64.scenario_A_promised /\
    prepare (exact_series s) (exact_series out) = inr (date_str, message) /\
    contains "below" (lower message) = true.

Definition frame_A : DataFrame :=
  mkFrame ["Open"; "Close"]
    [(jan 2, [Some (19 # 1); Some (20 # 1)]);
     (jan 3, [Some (21 # 1); Some (22 # 1)]);
     (jan 4, [Some (20 # 1); Some (18 # 1)])].

Definition frame_empty : DataFrame := mkFrame ["Open"; "Close"] [].

Definition frame_nan : DataFrame :=
  mkFrame ["Close"] [(jan 2, [NaN]); (jan 3, [NaN])].

Definition getenv_full (name : string) : option string :=
  if String.eqb name "TELEGRAM_BOT_TOKEN" then Some "123:abc"
  else if String.eqb name "TELEGRAM_CHAT_ID" then Some "42"
  else None.

Definition getenv_no_token (name : string) : option string :=
  if String.eqb name "TELEGRAM_CHAT_ID" then Some "42" else None.

Definition response_ok : Response := mkResponse 200 None (inr "{}").

Definition timeout_error : exn := mkExn "ConnectTimeout" "timed out".

(** An empty first answer, then scenario A; Telegram accepts. *)
Definition env_retry : Env :=
  mkEnv getenv_full
    (fun n => match n with O => inr frame_empty | _ => inr frame_A end)
    (fun _ => inr response_ok).

(** Only empty answers; Telegram accepts. *)
Definition env_empty : Env :=
  mkEnv getenv_full (fun _ => inr frame_empty) (fun _ => inr response_ok).

(** Closes that are all NaN; Telegram does not answer. *)
Definition env_nan : Env :=
  mkEnv getenv_full (fun _ => inr frame_nan) (fun _ => inl timeout_error).

(** No bot token. *)
Definition env_no_token : Env :=
  mkEnv getenv_no_token (fun _ => inr frame_A) (fun _ => inr response_ok).

(** ** Vocabulary of the further properties *)

(** The state of the kernel before the first value. *)
Definition ewm_start : ewm_state := mkEwm NaN 1 0.

(** Whether a defined value has been met, along the values. *)
Fixpoint seen_so_far (seen : bool) (vals : list float) : list bool :=
  match vals with
  | [] => []
  | v :: rest =>
      let seen' := seen || is_observation v in
      seen' :: seen_so_far seen' rest
  end.

(** A float that is NaN or equal to a given value. *)
Definition nan_or (v : Q) (x : float) : Prop :=
  match x with
  | Some q => q == v
  | None => True
  end.

(** The rows of a series whose value is defined. *)
Definition defined_rows (s : Series) : Series :=
  filter (fun row => is_observation (snd row)) s.

(** The index label and the raw value of the rows of the joined frame. *)
Definition raw_column (df : Joined) : Series :=
  map (fun row => (fst row, fst (snd row))) df.

(** The state knows an average exactly when it has counted an observation. *)
Definition ewm_consistent (st : ewm_state) : Prop :=
  is_observation (weighted st) = (1 <=? nobs st)%nat.

(** Seconds slept along a list of events. *)
Fixpoint sleep_seconds (evs : list Event) : nat :=
  match evs with
  | [] => O
  | EvSleep n :: rest => (n + sleep_seconds rest)%nat
  | _ :: rest => sleep_seconds rest
  end.

(** A call of the run of [env] goes where [main] sends it: a download asks
    for ^VIX from the start date, a POST goes to the bot's sendMessage URL
    with the chat id. *)
Definition addressed (env : Env) (ev : Event) : Prop :=
  match ev with
  | EvDownload ticker start => ticker = "^VIX" /\ start = DEFAULT_START env
  | EvPost url chat _ =>
      url = telegram_url (bot_token_of env) /\ chat = chat_id_of env
  | _ => True
  end.

(** From [w] to [w']: at most [d] downloads, [p] POSTs and [s] seconds of
    sleep, every call addressed as above. *)
Definition budget (env : Env) (w w' : World) (d p s : nat) : Prop :=
  exists io,
    io_trace w' = io_trace w ++ io /\
    (downloads w <= downloads w' <= downloads w + d)%nat /\
    (posts w <= posts w' <= posts w + p)%nat /\
    (sleep_seconds io <= s)%nat /\
    Forall (addressed env) io.

Definition is_warning (ev : Event) : bool :=
  match ev with
  | EvLog WARNING _ => true
  | _ => false
  end.

Definition warnings (w : World) : list Event := filter is_warning (trace w).

Definition fetch_warning (attempt : nat) (e : exn) : Event :=
  EvLog WARNING ("Attempt " ++ string_of_nat attempt
                 ++ ": failed to download VIX: " ++ str_exn e).

Definition send_warning (attempt : nat) (e : exn) : Event :=
  EvLog WARNING ("Attempt " ++ string_of_nat attempt
                 ++ ": failed to send Telegram message: " ++ str_exn e).

(** One warning per failed attempt, up to the first success. *)
Definition retry_warnings (warning : nat -> exn -> Event)
  (err : nat -> option exn) (n : nat) : list Event :=
  match err n with
  | None => []
  | Some e1 =>
      warning 1%nat e1 ::
      match err (S n) with
      | None => []
      | Some e2 =>
          warning 2%nat e2 ::
          match err (S (S n)) with
          | None => []
          | Some e3 => [warning 3%nat e3]
          end
      end
  end.

(** Reading back a number printed with two decimals. *)
Fixpoint split_point (s : string) : option (string * string) :=
  match s with
  | EmptyString => None
  | String c rest =>
      if Ascii.eqb c "." then Some (EmptyString, rest)
      else
        match split_point rest with
        | Some (a, b) => Some (String c a, b)
        | None => None
        end
  end.

Definition read_N (s : string) : option N :=
  option_map N.of_uint (NilEmpty.uint_of_string s).

Definition read_2f (s : string) : option Q :=
  let '(negative, body) :=
    match s with
    | String c rest => if Ascii.eqb c "-" then (true, rest) else (false, s)
    | EmptyString => (false, s)
    end in
  match split_point body with
  | Some (ip, fp) =>
      match read_N ip, read_N fp with
      | Some i, Some f =>
          let v := Z.of_N (100 * i + f) # 100 in
          Some (if negative then - v else v)
      | _, _ => None
      end
  | None => None
  end.

(** Reading back a date printed as YYYY-MM-DD. *)
Definition read_Ymd (s : string) : option Timestamp :=
  match s with
  | String y1 (String y2 (String y3 (String y4 (String d1
      (String m1 (String m2 (String d2
        (String a1 (String a2 EmptyString))))))))) =>
      if Ascii.eqb d1 "-" && Ascii.eqb d2 "-" then
        match read_N (String y1 (String y2 (String y3 (String y4 EmptyString))))
            , read_N (String m1 (String m2 EmptyString))
            , read_N (String a1 (String a2 EmptyString)) with
        | Some y, Some m, Some d => Some (mkTimestamp y m d)
        | _, _, _ => None
        end
      else None
  | _ => None
  end.

(** ** Further scenarios *)

(** A gap before the first close and one after it. *)
Definition series_with_gaps : Series :=
  [(jan 2, NaN); (jan 3, Some (20 # 1)); (jan 4, NaN)].

(** The same close three times, once written differently, around a gap. *)
Definition series_constant : Series :=
  [(jan 2, Some (20 # 1)); (jan 3, NaN); (jan 4, Some (40 # 2))].

Definition response_not_json : Response :=
  mkResponse 200 None (inl (mkExn "JSONDecodeError" "Expecting value")).

(** Telegram accepts, but its answers are not JSON. *)
Definition env_not_json : Env :=
  mkEnv getenv_full (fun _ => inr frame_A) (fun _ => inr response_not_json).

(** * Properties *)

Local Open Scope list_scope.

(** ** Runs of the model *)

Example format_2f_runs :
  format_2f (Some (18 # 1)) = "18.00" /\
  format_2f (Some (199982 # 10000)) = "20.00" /\
  format_2f (Some (1 # 8)) = "0.12" /\
  format_2f (Some (3 # 8)) = "0.38" /\
  format_2f (Some (-1 # 1000)) = "-0.00" /\
  format_2f NaN = "nan".
Proof. repeat split; reflexivity. Qed.

(** The average of the day before stands in for a gap, and the next defined
    value is weighted against it by position; with lambda = 1/2 the centre
    of mass is 1 and the weights are 1/4 and 3/4. *)
Example ewm_over_a_gap :
  option_map (map (fun row => option_map Qred (snd row)))
    (match compute_ewma [(jan 2, Some 1); (jan 3, NaN); (jan 4, Some 3)] (1 # 2)
     with inr out => Some out | inl _ => None end)
  = Some [Some 1; Some 1; Some (5 # 2)].
Proof. vm_compute. reflexivity. Qed.

(** The same series on binary64 numbers, and scenario A, whose third value
    comes out one step below the binary64 number 19.9982. *)
Example b64_over_a_gap :
  B64.ewm_kernel 1 [1; nan; 3]%float = [1; 1; 2.5]%float.
Proof. vm_compute. reflexivity. Qed.

Example b64_scenario_A :
  B64.compute_ewma (B64.scenario_A (jan 2) (jan 3) (jan 4)) B64.default_lambda
  = inr (combine [jan 2; jan 3; jan 4] B64.scenario_A_smoothed) /\
  PrimFloat.ltb (nth 2 B64.scenario_A_smoothed nan)
                (nth 2 B64.scenario_A_promised nan) = true /\
  PrimFloat.eqb (next_up (nth 2 B64.scenario_A_smoothed nan))
                (nth 2 B64.scenario_A_promised nan) = true.
Proof. repeat split; vm_compute; reflexivity. Qed.

Example compute_ewma_rejects_lambda_one :
  compute_ewma (scenario_A (jan 2) (jan 3) (jan 4)) 1
  = inl (ValueError "alpha must satisfy: 0 < alpha <= 1").
Proof. reflexivity. Qed.

(** An empty first download, then scenario A: one sleep, one message. *)
Example main_after_one_retry :
  fst (main env_retry world0) = 0%nat /\
  io_trace (snd (main env_retry world0)) =
    [EvDownload "^VIX" "2010-01-01"; EvSleep 5;
     EvDownload "^VIX" "2010-01-01";
     EvPost (telegram_url "123:abc") "42"
       (create_message "2024-01-04" (Some (18 # 1)) (Some (199982 # 10000)) 0)].
Proof. split; vm_compute; reflexivity. Qed.

(** Closes that are all NaN and a Telegram that never answers. *)
Example main_when_nothing_works :
  let e := RuntimeError "Resulting DataFrame empty after dropping NA" in
  let failure := EvPost (telegram_url "123:abc") "42" (failure_text e) in
  fst (main env_nan world0) = 1%nat /\
  io_trace (snd (main env_nan world0)) =
    [EvDownload "^VIX" "2010-01-01";
     failure; EvSleep 5; failure; EvSleep 10; failure] /\
  last (trace (snd (main env_nan world0))) (EvSleep 0) =
    EvLog ERROR "Also failed to send failure message to Telegram".
Proof. repeat split; vm_compute; reflexivity. Qed.

(** ** Text *)

Lemma contains_unfold needle hay :
  contains needle hay =
  prefix needle hay ||
  match hay with
  | EmptyString => false
  | String _ rest => contains needle rest
  end.
Proof. destruct hay; reflexivity. Qed.

Lemma prefix_app (n b : string) : prefix n (n ++ b)%string = true.
Proof.
  induction n as [|c n IH]; simpl.
  - destruct b; reflexivity.
  - destruct (ascii_dec c c) as [_|K]; [exact IH|contradiction].
Qed.

Lemma contains_here (n b : string) : contains n (n ++ b)%string = true.
Proof. rewrite contains_unfold, prefix_app. reflexivity. Qed.

Lemma contains_skip (a n h : string) :
  contains n h = true -> contains n (a ++ h)%string = true.
Proof.
  intros H. induction a as [|c a IH]; simpl; [exact H|].
  rewrite IH. apply orb_true_r.
Qed.

Lemma contains_mid (a n b : string) : contains n (a ++ n ++ b)%string = true.
Proof. apply contains_skip, contains_here. Qed.

Lemma contains_end (a n : string) : contains n (a ++ n)%string = true.
Proof.
  apply contains_skip. induction n as [|c n IH]; [reflexivity|].
  simpl. destruct (ascii_dec c c) as [_|K]; [|contradiction].
  replace (prefix n n) with true; [reflexivity|].
  clear IH. induction n as [|d n IH]; [reflexivity|].
  simpl. destruct (ascii_dec d d) as [_|K]; [exact IH|contradiction].
Qed.

Lemma occurs_app c (a b : string) :
  occurs c (a ++ b)%string = occurs c a || occurs c b.
Proof.
  induction a as [|d a IH]; simpl; [reflexivity|].
  rewrite IH. apply orb_assoc.
Qed.

Lemma prefix_occurs c (n h : string) :
  prefix n h = true -> occurs c n = true -> occurs c h = true.
Proof.
  revert n. induction h as [|d h IH]; intros [|e n] Hp Ho; simpl in *;
    try discriminate.
  destruct (ascii_dec e d) as [->|_]; [|discriminate].
  apply orb_true_iff in Ho as [Ho|Ho].
  - rewrite Ho. reflexivity.
  - rewrite (IH n Hp Ho). apply orb_true_r.
Qed.

Lemma contains_occurs c (n h : string) :
  contains n h = true -> occurs c n = true -> occurs c h = true.
Proof.
  intros Hc Ho. induction h as [|d h IH].
  - rewrite contains_unfold, orb_false_r in Hc. exact (prefix_occurs c n _ Hc Ho).
  - rewrite contains_unfold in Hc. apply orb_true_iff in Hc as [Hp|Hc].
    + exact (prefix_occurs c n _ Hp Ho).
    + simpl. rewrite (IH Hc). apply orb_true_r.
Qed.

Lemma all_chars_app p (a b : string) :
  all_chars p (a ++ b)%string = all_chars p a && all_chars p b.
Proof.
  induction a as [|c a IH]; simpl; [reflexivity|].
  rewrite IH. apply andb_assoc.
Qed.

Lemma all_chars_occurs p c (s : string) :
  all_chars p s = true -> p c = false -> occurs c s = false.
Proof.
  intros Ha Hc. induction s as [|d s IH]; [reflexivity|].
  simpl in *. apply andb_true_iff in Ha as [Hd Ha].
  rewrite (IH Ha), orb_false_r.
  destruct (Ascii.eqb_spec c d) as [->|_]; [congruence|reflexivity].
Qed.

Lemma uint_digits d : all_chars is_digit (NilEmpty.string_of_uint d) = true.
Proof. induction d; simpl; try reflexivity; exact IHd. Qed.

Lemma uint_zero_digits d :
  all_chars is_digit (NilZero.string_of_uint d) = true
  /\ NilZero.string_of_uint d <> EmptyString.
Proof.
  destruct d; simpl; split; try reflexivity; try discriminate;
    apply (uint_digits d).
Qed.

Lemma string_of_N_digits n : all_chars is_digit (string_of_N n) = true.
Proof. apply uint_zero_digits. Qed.

Lemma string_of_N_nonempty n : string_of_N n <> EmptyString.
Proof. apply uint_zero_digits. Qed.

Lemma zeros_digits k : all_chars is_digit (zeros k) = true.
Proof. induction k; simpl; [reflexivity|exact IHk]. Qed.

Lemma zfill_digits k s :
  all_chars is_digit s = true -> all_chars is_digit (zfill k s) = true.
Proof.
  intros H. unfold zfill. rewrite all_chars_app, zeros_digits, H. reflexivity.
Qed.

(** Checks over a finite range, by evaluation. *)
Lemma forallb_seq (p : nat -> bool) (lo len n : nat) :
  forallb p (seq lo len) = true -> (lo <= n < lo + len)%nat -> p n = true.
Proof.
  intros H Hn. rewrite forallb_forall in H. apply H, in_seq. exact Hn.
Qed.

Lemma year_four_digits y :
  (1000 <= y <= 9999)%N -> String.length (string_of_N y) = 4%nat.
Proof.
  intros H. rewrite <- (N2Nat.id y). apply Nat.eqb_eq.
  apply (forallb_seq
           (fun n => String.length (string_of_N (N.of_nat n)) =? 4)%nat
           1000 (9 * 1000)).
  - vm_compute. reflexivity.
  - lia.
Qed.

Lemma two_digits_N k :
  (k < 100)%N -> String.length (zfill 2 (string_of_N k)) = 2%nat.
Proof.
  intros H. rewrite <- (N2Nat.id k). apply Nat.eqb_eq.
  apply (forallb_seq
           (fun n => String.length (zfill 2 (string_of_N (N.of_nat n))) =? 2)%nat
           0 100).
  - vm_compute. reflexivity.
  - lia.
Qed.

Lemma strftime_is_Ymd ts :
  (1000 <= year ts <= 9999)%N -> (month ts <= 99)%N -> (day ts <= 99)%N ->
  is_Ymd (strftime_Ymd ts) = true.
Proof.
  intros Hy Hm Hd. unfold strftime_Ymd.
  pose proof (year_four_digits _ Hy) as Ly.
  pose proof (string_of_N_digits (year ts)) as Dy.
  pose proof (two_digits_N (month ts) ltac:(lia)) as Lm.
  pose proof (zfill_digits 2 _ (string_of_N_digits (month ts))) as Dm.
  pose proof (two_digits_N (day ts) ltac:(lia)) as Ld.
  pose proof (zfill_digits 2 _ (string_of_N_digits (day ts))) as Dd.
  destruct (string_of_N (year ts)) as [|y1 [|y2 [|y3 [|y4 [|? ?]]]]];
    try discriminate Ly.
  destruct (zfill 2 (string_of_N (month ts))) as [|m1 [|m2 [|? ?]]];
    try discriminate Lm.
  destruct (zfill 2 (string_of_N (day ts))) as [|d1 [|d2 [|? ?]]];
    try discriminate Ld.
  simpl in Dy, Dm, Dd |- *.
  repeat match goal with
         | H : _ && _ = true |- _ => apply andb_true_iff in H as [? H]
         end.
  repeat match goal with
         | H : is_digit _ = true |- _ => rewrite H; clear H
         end.
  reflexivity.
Qed.

(** ** Numbers with two decimals *)

Lemma all_chars_weaken (p q : ascii -> bool) (s : string) :
  (forall c, p c = true -> q c = true) ->
  all_chars p s = true -> all_chars q s = true.
Proof.
  intros Hpq. induction s as [|c s IH]; simpl; [reflexivity|].
  intros H. apply andb_true_iff in H as [Hc Hs].
  rewrite (Hpq c Hc), (IH Hs). reflexivity.
Qed.

Lemma digit_is_plain c : is_digit c = true -> is_plain c = true.
Proof. intros H. unfold is_plain. rewrite H. reflexivity. Qed.

Lemma round_half_even_close (num : Z) (den : positive) :
  (0 <= num)%Z ->
  let n := round_half_even num den in
  (0 <= n)%Z /\ (Z.abs (2 * num - 2 * n * Zpos den) <= Zpos den)%Z.
Proof.
  intros Hn. unfold round_half_even.
  pose proof (Z.div_mod num (Zpos den) ltac:(lia)) as E.
  pose proof (Z.mod_pos_bound num (Zpos den) ltac:(lia)) as B.
  pose proof (Z.div_pos num (Zpos den) Hn ltac:(lia)) as P.
  set (f := (num / Zpos den)%Z) in *. set (r := (num mod Zpos den)%Z) in *.
  destruct (Z.compare_spec (2 * r) (Zpos den)) as [C|C|C];
    [destruct (Z.even f)| |]; cbv zeta; split; nia.
Qed.

Lemma cents_nonneg q : (0 <= cents q)%Z.
Proof. apply round_half_even_close. lia. Qed.

(** The printed hundredths are within half a hundredth of the value. *)
Lemma cents_accurate q : Qabs (inject_Z (cents q) / 100 - Qabs q) <= 1 # 200.
Proof.
  destruct (round_half_even_close (Z.abs (Qnum q) * 100) (Qden q) ltac:(lia))
    as [_ H].
  fold (cents q) in H. 
  apply Qabs_Qle_condition.
  destruct q as [a d]. unfold Qabs. cbn [Qnum Qden] in *.
  unfold Qle, Qminus, Qdiv, Qplus, Qopp, Qmult, Qinv, inject_Z. cbn.
  split; lia.
Qed.

Lemma digits_point_two_ok (a : string) (d1 d2 : ascii) (seen : bool) :
  all_chars is_digit a = true ->
  (a <> EmptyString \/ seen = true) ->
  is_digit d1 = true -> is_digit d2 = true ->
  digits_point_two (a ++ "." ++ String d1 (String d2 EmptyString))%string seen = true.
Proof.
  revert seen. induction a as [|c a IH]; intros seen Ha Hs H1 H2.
  - destruct Hs as [K | ->]; [contradiction|]. simpl. rewrite H1, H2. reflexivity.
  - simpl in Ha |- *. apply andb_true_iff in Ha as [Hc Ha]. rewrite Hc.
    apply IH; auto.
Qed.

Lemma render_cents_shape n :
  (0 <= n)%Z ->
  digits_point_two (render_cents n) false = true /\
  all_chars is_plain (render_cents n) = true.
Proof.
  intros Hn. unfold render_cents.
  pose proof (Z.mod_pos_bound n 100 ltac:(lia)) as B.
  pose proof (two_digits_N (Z.to_N (n mod 100)) ltac:(lia)) as L.
  pose proof (zfill_digits 2 _ (string_of_N_digits (Z.to_N (n mod 100)))) as D.
  destruct (zfill 2 (string_of_N (Z.to_N (n mod 100)))) as [|d1 [|d2 [|? ?]]];
    try discriminate L.
  simpl in D. apply andb_true_iff in D as [D1 D2].
  rewrite andb_true_r in D2. split.
  - apply digits_point_two_ok; auto using string_of_N_digits.
    left. apply string_of_N_nonempty.
  - rewrite all_chars_app.
    rewrite (all_chars_weaken _ _ _ digit_is_plain (string_of_N_digits _)).
    simpl. rewrite (digit_is_plain _ D1), (digit_is_plain _ D2). reflexivity.
Qed.

Lemma format_2f_shape q :
  is_2f (format_2f (Some q)) = true /\
  all_chars is_plain (format_2f (Some q)) = true.
Proof.
  unfold format_2f.
  destruct (render_cents_shape (cents q) (cents_nonneg q)) as [S P].
  destruct (Qnum q <? 0)%Z.
  - simpl. split; [exact S|exact P].
  - simpl. split; [|exact P].
    destruct (render_cents (cents q)) as [|c rest] eqn:E; [discriminate S|].
    unfold is_2f. destruct (Ascii.eqb_spec c "-") as [->|_]; [|exact S].
    simpl in S. discriminate S.
Qed.

Lemma strftime_plain ts : all_chars is_plain (strftime_Ymd ts) = true.
Proof.
  unfold strftime_Ymd. rewrite !all_chars_app.
  rewrite (all_chars_weaken _ _ _ digit_is_plain (string_of_N_digits _)).
  rewrite !(all_chars_weaken _ _ _ digit_is_plain
              (zfill_digits 2 _ (string_of_N_digits _))).
  reflexivity.
Qed.

(** ** Reading printed numbers back *)

Lemma read_N_string_of_N n : read_N (string_of_N n) = Some n.
Proof.
  unfold read_N, string_of_N, NilZero.string_of_uint.
  rewrite <- (DecimalN.Unsigned.of_to n) at 2.
  destruct (N.to_uint n); try (rewrite NilEmpty.usu; reflexivity).
  reflexivity.
Qed.

Lemma read_N_two_digits k :
  (k < 100)%N -> read_N (zfill 2 (string_of_N k)) = Some k.
Proof.
  intros H. rewrite <- (N2Nat.id k).
  assert (forall x y : option N, x = y <-> (match x, y with
            | Some a, Some b => N.eqb a b | None, None => true
            | _, _ => false end) = true) as Heq.
  { intros [a|] [b|]; split; intros K; try discriminate; try reflexivity.
    - injection K as ->. apply N.eqb_refl.
    - apply N.eqb_eq in K. congruence. }
  apply Heq.
  apply (forallb_seq
           (fun n => match read_N (zfill 2 (string_of_N (N.of_nat n))),
                           Some (N.of_nat n) with
                     | Some a, Some b => N.eqb a b
                     | None, None => true
                     | _, _ => false
                     end) 0 100).
  - vm_compute. reflexivity.
  - lia.
Qed.

Lemma split_point_digits (a b : string) :
  all_chars is_digit a = true ->
  split_point (a ++ "." ++ b)%string = Some (a, b).
Proof.
  induction a as [|c a IH]; intros H; [reflexivity|].
  simpl in H. apply andb_true_iff in H as [Hc Ha].
  cbn [append split_point].
  destruct (Ascii.eqb_spec c "."); [subst; discriminate Hc|].
  change (a ++ String "." b)%string with (a ++ "." ++ b)%string.
  rewrite (IH Ha). reflexivity.
Qed.

Lemma read_render_cents n :
  (0 <= n)%Z ->
  split_point (render_cents n) <> None /\
  match split_point (render_cents n) with
  | Some (ip, fp) =>
      match read_N ip, read_N fp with
      | Some i, Some f => Z.of_N (100 * i + f) = n
      | _, _ => False
      end
  | None => False
  end.
Proof.
  intros Hn. unfold render_cents.
  rewrite split_point_digits by apply string_of_N_digits.
  split; [discriminate|].
  pose proof (Z.mod_pos_bound n 100 ltac:(lia)) as B.
  rewrite read_N_string_of_N, read_N_two_digits by lia.
  pose proof (Z.div_mod n 100 ltac:(lia)).
  pose proof (Z.div_pos n 100 Hn ltac:(lia)).
  lia.
Qed.

Lemma read_2f_format_2f q :
  read_2f (format_2f (Some q)) =
  Some (if (Qnum q <? 0)%Z then - (cents q # 100) else cents q # 100).
Proof.
  unfold format_2f.
  destruct (read_render_cents (cents q) (cents_nonneg q)) as [Hs Hr].
  destruct (render_cents_shape (cents q) (cents_nonneg q)) as [Hshape _].
  destruct (Qnum q <? 0)%Z.
  - cbn [append]. unfold read_2f. cbn [Ascii.eqb Bool.eqb].
    destruct (split_point (render_cents (cents q))) as [[ip fp]|];
      [|contradiction].
    destruct (read_N ip) as [i|]; [|contradiction].
    destruct (read_N fp) as [f|]; [|contradiction].
    cbv zeta. rewrite Hr. reflexivity.
  - cbn [append]. unfold read_2f.
    destruct (render_cents (cents q)) as [|c rest] eqn:E;
      [discriminate Hshape|].
    destruct (Ascii.eqb_spec c "-") as [->|_];
      [simpl in Hshape; discriminate Hshape|].
    destruct (split_point (String c rest)) as [[ip fp]|]; [|contradiction].
    destruct (read_N ip) as [i|]; [|contradiction].
    destruct (read_N fp) as [f|]; [|contradiction].
    cbv zeta. rewrite Hr. reflexivity.
Qed.

Lemma read_2f_accurate q :
  exists v, read_2f (format_2f (Some q)) = Some v /\ Qabs (v - q) <= 1 # 200.
Proof.
  eexists. split; [apply read_2f_format_2f|].
  destruct (round_half_even_close (Z.abs (Qnum q) * 100) (Qden q) ltac:(lia))
    as [Hc H]. fold (cents q) in H, Hc.
  generalize dependent (cents q). intros c Hc H.
  apply Qabs_Qle_condition. destruct q as [a d]. cbn [Qnum Qden] in *.
  destruct (Z.ltb_spec a 0);
    unfold Qle, Qminus, Qplus, Qopp; cbn [Qnum Qden]; split; lia.
Qed.

(** ** Reading printed dates back *)

Lemma read_Ymd_strftime ts :
  (1000 <= year ts <= 9999)%N -> (month ts <= 99)%N -> (day ts <= 99)%N ->
  read_Ymd (strftime_Ymd ts) = Some ts.
Proof.
  intros Hy Hm Hd. unfold strftime_Ymd.
  pose proof (year_four_digits _ Hy) as Ly.
  pose proof (read_N_string_of_N (year ts)) as Ry.
  pose proof (two_digits_N (month ts) ltac:(lia)) as Lm.
  pose proof (read_N_two_digits (month ts) ltac:(lia)) as Rm.
  pose proof (two_digits_N (day ts) ltac:(lia)) as Ld.
  pose proof (read_N_two_digits (day ts) ltac:(lia)) as Rd.
  destruct (string_of_N (year ts)) as [|y1 [|y2 [|y3 [|y4 [|]]]]];
    try discriminate Ly.
  destruct (zfill 2 (string_of_N (month ts))) as [|m1 [|m2 [|]]];
    try discriminate Lm.
  destruct (zfill 2 (string_of_N (day ts))) as [|a1 [|a2 [|]]];
    try discriminate Ld.
  cbn [append read_Ymd Ascii.eqb Bool.eqb andb]. rewrite Ry, Rm, Rd.
  destruct ts; reflexivity.
Qed.

(** ** Lower case *)

Lemma lower_app (a b : string) : lower (a ++ b) = (lower a ++ lower b)%string.
Proof. induction a as [|c a IH]; cbn [append lower]; congruence. Qed.

(** ** Smoothing *)

Lemma alpha_of_com (alpha : Q) :
  ~ alpha == 0 -> 1 / (1 + (1 - alpha) / alpha) == alpha.
Proof.
  intros H. field. split; [exact H|].
  intros K. ring_simplify in K. discriminate K.
Qed.

Lemma get_center_of_mass_ok (alpha : Q) :
  0 < alpha -> alpha <= 1 ->
  get_center_of_mass alpha = inr ((1 - alpha) / alpha).
Proof.
  intros H0 H1. unfold get_center_of_mass.
  destruct (Qle_bool alpha 0) eqn:E0.
  - apply Qle_bool_iff in E0. exfalso. apply (Qlt_not_le _ _ H0 E0).
  - destruct (Qle_bool alpha 1) eqn:E1; [reflexivity|].
    apply Qle_bool_iff in H1. congruence.
Qed.

Lemma ewm_kernel_length com vals :
  List.length (ewm_kernel com vals) = List.length vals.
Proof.
  destruct vals as [|v0 rest]; [reflexivity|]. simpl. f_equal.
  generalize (mkEwm v0 1 (if is_observation v0 then 1 else 0)).
  induction rest as [|c rest IH]; intros st; simpl; [reflexivity|].
  now rewrite IH.
Qed.

Lemma index_combine (s : Series) (vs : list float) :
  List.length vs = List.length s -> index (combine (index s) vs) = index s.
Proof.
  unfold index. revert vs.
  induction s as [|[t x] s IH]; intros [|v vs] H; simpl in *;
    try reflexivity; try discriminate.
  f_equal. apply IH. lia.
Qed.

Lemma values_combine (s : Series) (vs : list float) :
  List.length vs = List.length s -> values (combine (index s) vs) = vs.
Proof.
  unfold index, values. revert vs.
  induction s as [|[t x] s IH]; intros [|v vs] H; simpl in *;
    try reflexivity; try discriminate.
  f_equal. apply IH. lia.
Qed.

Lemma values_length (s : Series) : List.length (values s) = List.length s.
Proof. apply length_map. Qed.

(** A defined input after a defined average: the kernel's normalised update
    is the textbook convex combination. *)
Lemma ewm_step_observed cm f a alpha st w c :
  f == 1 - alpha -> a == alpha ->
  weighted st = Some w -> old_wt st = 1 ->
  exists w', ewm_step cm f a st (Some c) = mkEwm (Some w') 1 (nobs st + 1)
     /\ w' == alpha * c + (1 - alpha) * w.
Proof.
  intros Hf Ha Hw Ho. unfold ewm_step. rewrite Hw, Ho. simpl.
  destruct (Qeq_bool w c) eqn:E.
  - exists w. split; [reflexivity|]. apply Qeq_bool_iff in E. rewrite E. ring.
  - eexists. split; [reflexivity|].
    destruct (Qeq_bool cm 1); rewrite ?Hf, ?Ha; field;
      intros K; ring_simplify in K; discriminate K.
Qed.

Lemma ewm_loop_recurrence cm f a alpha :
  f == 1 - alpha -> a == alpha ->
  forall vals st w,
    forallb is_observation vals = true ->
    weighted st = Some w -> old_wt st = 1 -> (1 <= nobs st)%nat ->
    forall i, (i < List.length vals)%nat ->
      float_eq (nth i (ewm_loop cm f a st vals) NaN)
        (fadd (fmul alpha (nth i vals NaN))
              (fmul (1 - alpha) (nth i (Some w :: ewm_loop cm f a st vals) NaN))).
Proof.
  intros Hf Ha.
  induction vals as [|cur rest IH]; intros st w Hall Hw Ho Hn i Hi;
    simpl in Hi; [lia|].
  simpl in Hall. apply andb_true_iff in Hall as [Hc Hall].
  destruct cur as [c|]; [|discriminate].
  destruct (ewm_step_observed cm f a alpha st w c Hf Ha Hw Ho) as (w' & Est & Ew').
  cbn [ewm_loop]. rewrite Est.
  assert (Eout : ewm_output (mkEwm (Some w') 1 (nobs st + 1)) = Some w').
  { unfold ewm_output, ewm_minp. cbn [nobs weighted].
    destruct (Nat.leb_spec 1 (nobs st + 1)); [reflexivity|lia]. }
  rewrite Eout.
  destruct i as [|i].
  - simpl. exact Ew'.
  - cbn [nth].
    specialize (IH (mkEwm (Some w') 1 (nobs st + 1)) w' Hall eq_refl eq_refl).
    apply (IH ltac:(simpl; lia) i). lia.
Qed.

Lemma ewm_kernel_first com vals :
  nth 0 (ewm_kernel com vals) NaN = nth 0 vals NaN.
Proof.
  destruct vals as [|[q|] rest]; reflexivity.
Qed.

Lemma compute_ewma_runs (s : Series) (lambda_ : Q) :
  0 < lambda_ -> lambda_ < 1 ->
  compute_ewma s lambda_ =
    inr (combine (index s)
           (ewm_kernel ((1 - (1 - lambda_)) / (1 - lambda_)) (values s))).
Proof.
  intros H0 H1. unfold compute_ewma, ewm_mean.
  rewrite get_center_of_mass_ok; [reflexivity| |].
  - lra.
  - lra.
Qed.

Lemma compute_ewma_shape (s : Series) (lambda_ : Q) :
  0 < lambda_ -> lambda_ < 1 ->
  exists out,
    compute_ewma s lambda_ = inr out /\
    index out = index s /\
    List.length out = List.length s /\
    values out =
      ewm_kernel ((1 - (1 - lambda_)) / (1 - lambda_)) (values s).
Proof.
  intros H0 H1. eexists. split; [apply compute_ewma_runs; assumption|].
  set (com := (1 - (1 - lambda_)) / (1 - lambda_)).
  assert (Hlen : List.length (ewm_kernel com (values s)) = List.length s)
    by (rewrite ewm_kernel_length; apply values_length).
  split; [apply index_combine; exact Hlen|].
  split; [|apply values_combine; exact Hlen].
  rewrite <- (length_map fst).
  fold (index (combine (index s) (ewm_kernel com (values s)))).
  rewrite index_combine by exact Hlen. apply length_map.
Qed.

(** ** The smoothing in binary64 *)















(** ** Retry loops *)

Lemma io_trace_snoc_log d p t lvl msg :
  io_trace (mkWorld d p (t ++ [EvLog lvl msg])) = io_trace (mkWorld d p t).
Proof.
  unfold io_trace. simpl. rewrite filter_app. simpl. apply app_nil_r.
Qed.

Lemma io_trace_snoc d p t ev :
  is_io ev = true ->
  io_trace (mkWorld d p (t ++ [ev])) = io_trace (mkWorld d p t) ++ [ev].
Proof.
  intros H. unfold io_trace. simpl. rewrite filter_app. simpl. now rewrite H.
Qed.

Ltac run_io :=
  repeat (rewrite io_trace_snoc_log || (rewrite io_trace_snoc by reflexivity));
  repeat rewrite <- app_assoc; cbn [app].

Ltac unfold_effects :=
  unfold bind, try_except, log, sleep, emit, download, post, raise, ret, lift;
  cbn [downloads posts trace].

Ltac close_outcome :=
  cbn [downloads posts trace]; do 2 eexists; split;
  [ repeat split; reflexivity
  | run_io; repeat split; solve [reflexivity | lia] ].

Lemma fetch_vix_policy env start w :
  let '(r, w') := fetch_vix env start w in
  exists used io,
    retry_outcome (EvDownload "^VIX" start)
      (fun k => fetch_error (yf_download env k))
      (fun k => fetch_value (yf_download env k))
      (downloads w) r used io /\
    io_trace w' = io_trace w ++ io /\
    downloads w' = (downloads w + used)%nat /\
    posts w' = posts w.
Proof.
  destruct w as [d p t].
  unfold fetch_vix, attempts, retry_outcome, fetch_error, fetch_value.
  cbn [seq RETRIES fetch_loop]. unfold fetch_try. unfold_effects.
  destruct (yf_download env d) as [e1|df1].
  2: destruct (df_empty df1 || negb (in_columns "Close" df1)).
  3: solve [close_outcome].
  all: cbn [Nat.ltb Nat.leb RETRIES RETRY_DELAY Nat.mul Nat.add
              downloads posts trace].
  all: destruct (yf_download env (S d)) as [e2|df2].
  all: try destruct (df_empty df2 || negb (in_columns "Close" df2)).
  all: try solve [close_outcome].
  all: cbn [downloads posts trace].
  all: destruct (yf_download env (S (S d))) as [e3|df3].
  all: try destruct (df_empty df3 || negb (in_columns "Close" df3)).
  all: try solve [close_outcome].
Qed.

Lemma send_telegram_policy env bot_token chat_id text w :
  let '(r, w') := send_telegram env bot_token chat_id text w in
  exists used io,
    retry_outcome (EvPost (telegram_url bot_token) chat_id text)
      (fun k => send_error (requests_post env k))
      (fun k => send_value (requests_post env k))
      (posts w) r used io /\
    io_trace w' = io_trace w ++ io /\
    posts w' = (posts w + used)%nat /\
    downloads w' = downloads w.
Proof.
  destruct w as [d p t].
  unfold send_telegram, attempts, retry_outcome, send_error, send_value.
  generalize (telegram_url bot_token) as url. intros url.
  cbn [seq RETRIES send_loop]. unfold send_try. unfold_effects.
  destruct (requests_post env p) as [e1|[s1 [x1|] [j1|v1]]];
    cbn [raise_for_status json status_code].
  all: try solve [close_outcome].
  all: cbn [Nat.ltb Nat.leb RETRIES RETRY_DELAY Nat.mul Nat.add
              downloads posts trace].
  all: destruct (requests_post env (S p)) as [e2|[s2 [x2|] [j2|v2]]];
    cbn [raise_for_status json status_code].
  all: try solve [close_outcome].
  all: cbn [downloads posts trace].
  all: destruct (requests_post env (S (S p))) as [e3|[s3 [x3|] [j3|v3]]];
    cbn [raise_for_status json status_code].
  all: try solve [close_outcome].
Qed.

(** C2: in [fetch_vix] and in [send_telegram], with the answers to the next
    three calls classified as failure or success: three failures give the
    calls and sleeps call, 5 s, call, 10 s, call and re-raise the third
    error as it is; a success at attempt one, two or three returns its value
    after one, two or three calls, with the sleeps of the failed attempts
    before it and nothing after it. *)
Theorem retry_policy (env : Env) :
  (forall start w,
     let '(r, w') := fetch_vix env start w in
     exists used io,
       retry_outcome (EvDownload "^VIX" start)
         (fun k => fetch_error (yf_download env k))
         (fun k => fetch_value (yf_download env k))
         (downloads w) r used io /\
       io_trace w' = io_trace w ++ io /\
       downloads w' = (downloads w + used)%nat /\
       posts w' = posts w) /\
  (forall bot_token chat_id text w,
     let '(r, w') := send_telegram env bot_token chat_id text w in
     exists used io,
       retry_outcome (EvPost (telegram_url bot_token) chat_id text)
         (fun k => send_error (requests_post env k))
         (fun k => send_value (requests_post env k))
         (posts w) r used io /\
       io_trace w' = io_trace w ++ io /\
       posts w' = (posts w + used)%nat /\
       downloads w' = downloads w).
Proof.
  split.
  - intros start w. apply fetch_vix_policy.
  - intros bot_token chat_id text w. apply send_telegram_policy.
Qed.

(** ** Decision and message *)

(** C3: on the latest aligned pair of defined values the flag is 1 exactly
    when the raw value is strictly greater than the smoothed one, and 0
    exactly when it is less or equal; in particular equal values give 0. *)
Theorem classification_strict (ts : Timestamp) (raw smoothed : Q) :
  let '(_, _, _, above) := observe (ts, (Some raw, Some smoothed)) in
  let '(_, _, _, above_same) := observe (ts, (Some raw, Some raw)) in
  (smoothed < raw <-> above = 1%Z) /\
  (raw <= smoothed <-> above = 0%Z) /\
  above_same = 0%Z.
Proof.
  unfold observe, float_gt. cbn [fst snd].
  assert (Qle_bool raw raw = true) as -> by (apply Qle_bool_iff; lra).
  destruct (Qle_bool raw smoothed) eqn:E; cbn [negb int_of_bool].
  - apply Qle_bool_iff in E.
    repeat split; intros; try reflexivity; try discriminate; try lra.
  - assert (~ raw <= smoothed) as N
      by (intros K; apply Qle_bool_iff in K; congruence).
    repeat split; intros; try reflexivity; try discriminate; try lra.
Qed.

Lemma message_layout date_str v e above :
  create_message date_str v e above =
  ("📅 " ++ date_str ++ nl ++ "VIX: " ++ format_2f v ++ nl
    ++ "EWMA(λ=0.97): " ++ format_2f e ++ nl ++ nl
    ++ (if (above =? 0)%Z then status_below else status_above))%string.
Proof. reflexivity. Qed.

Lemma append_assoc (a b c : string) : ((a ++ b) ++ c = a ++ (b ++ c))%string.
Proof. induction a; simpl; congruence. Qed.

Lemma message_contains_fields date_str v e above :
  let message := create_message date_str v e above in
  contains date_str message = true /\
  contains ("VIX: " ++ format_2f v)%string message = true /\
  contains ("EWMA(λ=0.97): " ++ format_2f e)%string message = true /\
  contains (if (above =? 0)%Z then status_below else status_above) message
    = true.
Proof.
  cbv zeta. rewrite message_layout.
  set (status := if (above =? 0)%Z then status_below else status_above).
  repeat split.
  - apply contains_mid.
  - replace ("📅 " ++ date_str ++ nl ++ "VIX: " ++ format_2f v ++ nl
             ++ "EWMA(λ=0.97): " ++ format_2f e ++ nl ++ nl ++ status)%string
      with (("📅 " ++ date_str ++ nl) ++ ("VIX: " ++ format_2f v)
            ++ (nl ++ "EWMA(λ=0.97): " ++ format_2f e ++ nl ++ nl ++ status))%string
      by (rewrite !append_assoc; reflexivity).
    apply contains_mid.
  - replace ("📅 " ++ date_str ++ nl ++ "VIX: " ++ format_2f v ++ nl
             ++ "EWMA(λ=0.97): " ++ format_2f e ++ nl ++ nl ++ status)%string
      with (("📅 " ++ date_str ++ nl ++ "VIX: " ++ format_2f v ++ nl)
            ++ ("EWMA(λ=0.97): " ++ format_2f e)
            ++ (nl ++ nl ++ status))%string
      by (rewrite !append_assoc; reflexivity).
    apply contains_mid.
  - replace ("📅 " ++ date_str ++ nl ++ "VIX: " ++ format_2f v ++ nl
             ++ "EWMA(λ=0.97): " ++ format_2f e ++ nl ++ nl ++ status)%string
      with (("📅 " ++ date_str ++ nl ++ "VIX: " ++ format_2f v ++ nl
             ++ "EWMA(λ=0.97): " ++ format_2f e ++ nl ++ nl) ++ status)%string
      by (rewrite !append_assoc; reflexivity).
    apply contains_end.
Qed.

(** A character that is in neither the fixed text, nor the dates and
    numbers, nor the chosen status line, is not in the message. *)
Lemma message_lacks_R date_str v e :
  all_chars is_plain date_str = true ->
  all_chars is_plain (format_2f v) = true ->
  all_chars is_plain (format_2f e) = true ->
  occurs "R" (create_message date_str v e 0) = false.
Proof.
  intros Hd Hv He. rewrite message_layout, !occurs_app.
  rewrite (all_chars_occurs _ "R" _ Hd eq_refl),
    (all_chars_occurs _ "R" _ Hv eq_refl), (all_chars_occurs _ "R" _ He eq_refl).
  reflexivity.
Qed.

Lemma message_lacks_F date_str v e :
  all_chars is_plain date_str = true ->
  all_chars is_plain (format_2f v) = true ->
  all_chars is_plain (format_2f e) = true ->
  occurs "F" (create_message date_str v e 1) = false.
Proof.
  intros Hd Hv He. rewrite message_layout, !occurs_app.
  rewrite (all_chars_occurs _ "F" _ Hd eq_refl),
    (all_chars_occurs _ "F" _ Hv eq_refl), (all_chars_occurs _ "F" _ He eq_refl).
  reflexivity.
Qed.

Lemma lacking_char_excludes c needle hay :
  occurs c needle = true -> occurs c hay = false -> contains needle hay = false.
Proof.
  intros Hn Hh. destruct (contains needle hay) eqn:E; [|reflexivity].
  rewrite (contains_occurs c _ _ E Hn) in Hh. discriminate Hh.
Qed.

(** C7: for a row with a four-digit year, a month and a day, the message
    contains the row's date as YYYY-MM-DD (read back, it is the date of the
    row), the row's raw and smoothed value each printed with two decimals
    (read back, each is within half a hundredth of the value), the decay
    parameter 0.97 that [main] smooths with, and the status line of the
    flag and not the other one. *)
Theorem alert_message_fields (ts : Timestamp) (raw smoothed : Q) :
  (1000 <= year ts <= 9999)%N ->
  (1 <= month ts <= 12)%N ->
  (1 <= day ts <= 31)%N ->
  let '(date_str, vix_val, ewma_val, above) :=
    observe (ts, (Some raw, Some smoothed)) in
  let message := create_message date_str vix_val ewma_val above in
  (is_Ymd date_str = true /\ read_Ymd date_str = Some ts /\
   contains date_str message = true) /\
  (is_2f (format_2f vix_val) = true /\
   (exists r, read_2f (format_2f vix_val) = Some r /\
              Qabs (r - raw) <= 1 # 200) /\
   contains ("VIX: " ++ format_2f vix_val)%string message = true) /\
  (is_2f (format_2f ewma_val) = true /\
   (exists r, read_2f (format_2f ewma_val) = Some r /\
              Qabs (r - smoothed) <= 1 # 200) /\
   contains ("EWMA(λ=0.97): " ++ format_2f ewma_val)%string message = true) /\
  (format_2f (Some default_lambda) = "0.97" /\
   contains ("λ=" ++ format_2f (Some default_lambda))%string message = true) /\
  (above = 0%Z \/ above = 1%Z) /\
  contains status_above message = negb (above =? 0)%Z /\
  contains status_below message = (above =? 0)%Z.
Proof.
  intros Hy Hm Hd. unfold observe. cbn [fst snd].
  set (above := int_of_bool (float_gt (Some raw) (Some smoothed))).
  set (date_str := strftime_Ymd ts).
  cbv zeta.
  destruct (message_contains_fields date_str (Some raw) (Some smoothed) above)
    as (Cd & Cv & Ce & Cs).
  destruct (format_2f_shape raw) as [Sv Pv].
  destruct (format_2f_shape smoothed) as [Se Pe].
  pose proof (strftime_plain ts) as Pd. fold date_str in Pd.
  split.
  { split; [apply strftime_is_Ymd; lia|].
    split; [apply read_Ymd_strftime; lia | exact Cd]. }
  split; [split; [exact Sv|split; [apply read_2f_accurate|exact Cv]]|].
  split; [split; [exact Se|split; [apply read_2f_accurate|exact Ce]]|].
  split.
  { split; [reflexivity|].
    change (format_2f (Some default_lambda)) with "0.97".
    rewrite message_layout.
    replace ("📅 " ++ date_str ++ nl ++ "VIX: " ++ format_2f (Some raw) ++ nl
             ++ "EWMA(λ=0.97): " ++ format_2f (Some smoothed) ++ nl ++ nl
             ++ (if (above =? 0)%Z then status_below else status_above))%string
      with (("📅 " ++ date_str ++ nl ++ "VIX: " ++ format_2f (Some raw) ++ nl
             ++ "EWMA(") ++ "λ=0.97"
            ++ ("): " ++ format_2f (Some smoothed) ++ nl ++ nl
             ++ (if (above =? 0)%Z then status_below else status_above)))%string
      by (rewrite !append_assoc; reflexivity).
    apply contains_mid. }
  assert (Hab : above = 0%Z \/ above = 1%Z).
  { unfold above. destruct (float_gt _ _); [right|left]; reflexivity. }
  split; [exact Hab|].
  destruct Hab as [E|E]; rewrite E in *; cbn [Z.eqb negb] in *.
  - split; [|exact Cs].
    apply (lacking_char_excludes "R"); [reflexivity|].
    apply message_lacks_R; assumption.
  - split; [exact Cs|].
    apply (lacking_char_excludes "F"); [reflexivity|].
    apply message_lacks_F; assumption.
Qed.

Lemma alert_message_fields_witness :
  let '(date_str, vix_val, ewma_val, above) :=
    observe (jan 4, (Some (18 # 1), Some (199982 # 10000))) in
  let message := create_message date_str vix_val ewma_val above in
  (is_Ymd date_str = true /\ read_Ymd date_str = Some (jan 4) /\
   contains date_str message = true) /\
  (is_2f (format_2f vix_val) = true /\
   (exists r, read_2f (format_2f vix_val) = Some r /\
              Qabs (r - (18 # 1)) <= 1 # 200) /\
   contains ("VIX: " ++ format_2f vix_val)%string message = true) /\
  (is_2f (format_2f ewma_val) = true /\
   (exists r, read_2f (format_2f ewma_val) = Some r /\
              Qabs (r - (199982 # 10000)) <= 1 # 200) /\
   contains ("EWMA(λ=0.97): " ++ format_2f ewma_val)%string message = true) /\
  (format_2f (Some default_lambda) = "0.97" /\
   contains ("λ=" ++ format_2f (Some default_lambda))%string message = true) /\
  (above = 0%Z \/ above = 1%Z) /\
  contains status_above message = negb (above =? 0)%Z /\
  contains status_below message = (above =? 0)%Z.
Proof.
  apply (alert_message_fields (jan 4) (18 # 1) (199982 # 10000));
    simpl; lia.
Defined.

Lemma below_message_says_below date_str v e :
  contains "below" (lower (create_message date_str v e 0)) = true.
Proof.
  rewrite message_layout. cbn [Z.eqb].
  replace ("📅 " ++ date_str ++ nl ++ "VIX: " ++ format_2f v ++ nl
           ++ "EWMA(λ=0.97): " ++ format_2f e ++ nl ++ nl ++ status_below)%string
    with (("📅 " ++ date_str ++ nl ++ "VIX: " ++ format_2f v ++ nl
           ++ "EWMA(λ=0.97): " ++ format_2f e ++ nl ++ nl) ++ status_below)%string
    by (rewrite !append_assoc; reflexivity).
  rewrite lower_app. apply contains_skip. reflexivity.
Qed.

(** C5, as amended: for the closes 20, 22, 18 and lambda = 0.97 the smoothed
    series is, in binary64, 20, 20.06 and 19.998199999999997: the last value
    is not the binary64 number 19.9982 but lies within 1e-14 of it.  18 is
    not above it, so the flag is 0, and the message carries the status line
    of the flag 0, which says below in capitals, after the values printed as
    18.00 and 20.00. *)
Theorem scenario_A_below (t1 t2 t3 : Timestamp) :
  let s := B64.scenario_A t1 t2 t3 in
  exists out y,
    B64.compute_ewma s B64.default_lambda = inr out /\
    B64.index out = [t1; t2; t3] /\
    B64.values out = B64.scenario_A_smoothed /\
    float_eq (exact_value (nth 2 (B64.values s) nan)) (Some (18 # 1)) /\
    exact_value (nth 2 (B64.values out) nan) = Some y /\
    Qabs (y - (199982 # 10000)) <= 1 # 100000000000000 /\
    B64.float_gt (nth 2 (B64.values s) nan) (nth 2 (B64.values out) nan)
      = false /\
    let message :=
      create_message (strftime_Ymd t3)
        (exact_value (nth 2 (B64.values s) nan)) (Some y) 0 in
    prepare (exact_series s) (exact_series out)
      = inr (strftime_Ymd t3, message) /\
    contains status_below message = true /\
    contains "below" (lower message) = true /\
    format_2f (exact_value (nth 2 (B64.values s) nan)) = "18.00" /\
    format_2f (Some y) = "20.00".
Proof.
  cbv zeta. eexists. eexists.
  split; [vm_compute; reflexivity|].
  split; [reflexivity|].
  split; [reflexivity|].
  split; [vm_compute; reflexivity|].
  split; [vm_compute; reflexivity|].
  split; [vm_compute; discriminate|].
  split; [vm_compute; reflexivity|].
  split; [reflexivity|].
  split; [apply (message_contains_fields (strftime_Ymd t3) _ _ 0)|].
  split; [apply below_message_says_below|].
  split; vm_compute; reflexivity.
Qed.

(** C5, as stated, fails: the third smoothed value the program computes is
    not the binary64 number 19.9982. *)
Lemma scenario_A_not_exact :
  ~ scenario_A_claim (B64.scenario_A (jan 2) (jan 3) (jan 4)).
Proof.
  intros (out & date_str & message & Hrun & Hv & _).
  vm_compute in Hrun. injection Hrun as <-.
  cbn [B64.values map snd] in Hv. unfold B64.scenario_A_promised in Hv.
  inversion_clear Hv as [|? ? ? ? _ Hv1].
  inversion_clear Hv1 as [|? ? ? ? _ Hv2].
  inversion_clear Hv2 as [|? ? ? ? H3 _].
  vm_compute in H3. discriminate H3.
Qed.

(** ** The orchestrator *)

Lemma main_except_notifies env bot_token chat_id e w1 :
  exists w2,
    main_except env bot_token chat_id e w1 = (1%nat, w2) /\
    failure_notified env bot_token chat_id e w1 w2.
Proof.
  unfold main_except, failure_notified.
  destruct w1 as [d p t]. unfold log at 1, emit. cbn [downloads posts trace].
  set (w1' := mkWorld d p (t ++ [EvLog ERROR "Unhandled error in vix_alert"])).
  pose proof (send_telegram_policy env bot_token chat_id (failure_text e) w1') as P.
  unfold try_except, bind.
  destruct (send_telegram env bot_token chat_id (failure_text e) w1') as [r w2].
  destruct P as (used & io & Hout & Hio & Hp & Hd).
  assert (Hio1 : io_trace w1' = io_trace (mkWorld d p t)) by apply io_trace_snoc_log.
  destruct r as [x|j].
  - destruct w2 as [d2 p2 t2]. unfold log, emit. cbn [downloads posts trace].
    eexists. split; [reflexivity|].
    exists (inl x), used, io. split; [exact Hout|].
    rewrite io_trace_snoc_log, Hio, Hio1.
    cbn [downloads posts trace] in *. repeat split; try assumption.
    intros x' _. eexists. reflexivity.
  - unfold ret. eexists. split; [reflexivity|].
    exists (inr j), used, io. split; [exact Hout|].
    rewrite Hio, Hio1. repeat split; try assumption.
    intros x' K. discriminate K.
Qed.

(** C4: with a credential missing, [main] exits with code 2 after one log
    line, without a download, a POST or a sleep; with both present, its
    exit code is 0 when the body of the [try] completes and 1 when it
    raises. *)
Theorem exit_codes (env : Env) (w : World) :
  (credentials_missing env = true ->
   main env w =
     (2%nat,
      mkWorld (downloads w) (posts w)
        (trace w ++
         [EvLog ERROR
            "Missing TELEGRAM_BOT_TOKEN or TELEGRAM_CHAT_ID environment variables"]))
   /\ io_trace (snd (main env w)) = io_trace w) /\
  (credentials_missing env = false ->
   fst (main env w) =
     match fst (main_try env (bot_token_of env) (chat_id_of env) w) with
     | inr _ => 0%nat
     | inl _ => 1%nat
     end).
Proof.
  unfold credentials_missing, bot_token_of, chat_id_of, main. split; intros H; rewrite H.
  - unfold log, emit. cbn [fst snd]. split; [reflexivity|].
    destruct w as [d p t]. apply io_trace_snoc_log.
  - destruct (main_try _ _ _ w) as [[e|u] w1]; cbn [fst]; [|reflexivity].
    destruct (main_except_notifies env (env_string (getenv env "TELEGRAM_BOT_TOKEN"))
                (env_string (getenv env "TELEGRAM_CHAT_ID")) e w1) as (w2 & E & _).
    rewrite E. reflexivity.
Qed.

Lemma exit_codes_witness :
  fst (main env_no_token world0) = 2%nat /\
  io_trace (snd (main env_no_token world0)) = [] /\
  fst (main env_retry world0) = 0%nat /\
  fst (main env_empty world0) = 1%nat.
Proof.
  destruct (exit_codes env_no_token world0) as [Hmiss _].
  destruct (Hmiss eq_refl) as [E Hio].
  destruct (exit_codes env_retry world0) as [_ Hok].
  destruct (exit_codes env_empty world0) as [_ Hfail].
  split; [rewrite E; reflexivity|]. split; [exact Hio|].
  split; [rewrite (Hok eq_refl)|rewrite (Hfail eq_refl)];
    vm_compute; reflexivity.
Defined.

Lemma fetch_error_none r :
  fetch_error r = None ->
  exists df, r = inr df /\ df_empty df = false /\ in_columns "Close" df = true
             /\ fetch_value r = getitem df "Close" /\ getitem df "Close" <> [].
Proof.
  unfold fetch_error, fetch_value. destruct r as [e|df]; [discriminate|].
  destruct (df_empty df) eqn:E; [discriminate|].
  destruct (in_columns "Close" df) eqn:C; [|discriminate].
  intros _. exists df.
  split; [reflexivity|]. split; [exact E|]. split; [exact C|].
  split; [reflexivity|].
  unfold getitem. unfold df_empty in E.
  destruct (df_columns df); [discriminate E|].
  destruct (df_rows df); [discriminate E|]. simpl. discriminate.
Qed.

Lemma fetch_error_invalid df :
  df_empty df = true \/ in_columns "Close" df = false ->
  fetch_error (inr df) = Some (RuntimeError "VIX data missing 'Close' or empty").
Proof.
  unfold fetch_error. intros [H|H]; rewrite H; [reflexivity|].
  rewrite orb_true_r. reflexivity.
Qed.

(** C9: a result of [fetch_vix] is the Close column of a frame that one of
    the three downloads returned, non-empty and with a Close column, so the
    series is non-empty, and every download before it counted as a failed
    attempt; a first answer that is empty or has no Close column is followed
    by the 5 s sleep and a second download. *)
Theorem fetch_returns_nonempty (env : Env) (start : string) (w : World) :
  (forall r w', fetch_vix env start w = (inr r, w') ->
     exists k df,
       (k < 3)%nat /\
       yf_download env (downloads w + k) = inr df /\
       df_empty df = false /\ in_columns "Close" df = true /\
       r = Some (getitem df "Close") /\ getitem df "Close" <> [] /\
       downloads w' = (downloads w + k + 1)%nat /\
       (forall j, (j < k)%nat ->
          fetch_error (yf_download env (downloads w + j)) <> None)) /\
  (forall df, yf_download env (downloads w) = inr df ->
     df_empty df = true \/ in_columns "Close" df = false ->
     exists io,
       io_trace (snd (fetch_vix env start w)) =
       io_trace w ++ EvDownload "^VIX" start :: EvSleep 5
         :: EvDownload "^VIX" start :: io).
Proof.
  pose proof (fetch_vix_policy env start w) as P.
  destruct (fetch_vix env start w) as [r0 w0].
  destruct P as (used & io & Hout & Hio & Hd & _).
  unfold retry_outcome in Hout.
  replace (S (downloads w)) with (downloads w + 1)%nat in Hout by lia.
  replace (S (downloads w + 1)) with (downloads w + 2)%nat in Hout by lia.
  split.
  - intros r w' E. injection E as -> ->.
    destruct (fetch_error (yf_download env (downloads w))) as [e1|] eqn:E1.
    + destruct (fetch_error (yf_download env (downloads w + 1))) as [e2|] eqn:E2.
      * destruct (fetch_error (yf_download env (downloads w + 2))) as [e3|] eqn:E3.
        { destruct Hout as (K & _). discriminate K. }
        destruct Hout as (K & -> & _). injection K as ->.
        destruct (fetch_error_none _ E3) as (df & Edf & He & Hc & Hv & Hn).
        exists 2%nat, df. rewrite Hv. repeat split; try assumption; try lia.
        intros j Hj. assert (j = 0 \/ j = 1)%nat as [-> | ->] by lia.
        -- rewrite Nat.add_0_r, E1. discriminate.
        -- rewrite E2. discriminate.
      * destruct Hout as (K & -> & _). injection K as ->.
        destruct (fetch_error_none _ E2) as (df & Edf & He & Hc & Hv & Hn).
        exists 1%nat, df. rewrite Hv. repeat split; try assumption; try lia.
        intros j Hj. assert (j = 0)%nat as -> by lia.
        rewrite Nat.add_0_r, E1. discriminate.
    + destruct Hout as (K & -> & _). injection K as ->.
      destruct (fetch_error_none _ E1) as (df & Edf & He & Hc & Hv & Hn).
      exists 0%nat, df. rewrite Nat.add_0_r, Hv.
      repeat split; try assumption; try lia.
  - intros df Edf Hbad. cbn [snd]. rewrite Hio.
    rewrite Edf, (fetch_error_invalid df Hbad) in Hout.
    destruct (fetch_error (yf_download env (downloads w + 1)));
      [destruct (fetch_error (yf_download env (downloads w + 2)))|];
      destruct Hout as (_ & _ & ->); eexists; reflexivity.
Qed.

Lemma fetch_returns_nonempty_witness :
  exists s w',
    fetch_vix env_retry "2010-01-01" world0 = (inr (Some s), w') /\
    s <> [] /\ downloads w' = 2%nat.
Proof.
  destruct (fetch_vix env_retry "2010-01-01" world0) as [r w'] eqn:E.
  destruct r as [e|r]; [vm_compute in E; discriminate E|].
  destruct (proj1 (fetch_returns_nonempty env_retry "2010-01-01" world0) r w' E)
    as (k & df & _ & _ & _ & _ & -> & Hne & _ & _).
  exists (getitem df "Close"), w'. split; [reflexivity|]. split; [exact Hne|].
  vm_compute in E. injection E as _ <-. reflexivity.
Defined.

Lemma main_try_fetch_raises env bot_token chat_id w e w1 :
  fetch_vix env (DEFAULT_START env) w = (inl e, w1) ->
  main_try env bot_token chat_id w = (inl e, w1).
Proof. intros H. unfold main_try, bind. rewrite H. reflexivity. Qed.

Lemma main_try_prepare_raises env bot_token chat_id w vix w1 vix_ewma e :
  fetch_vix env (DEFAULT_START env) w = (inr (Some vix), w1) ->
  compute_ewma vix default_lambda = inr vix_ewma ->
  prepare vix vix_ewma = inl e ->
  main_try env bot_token chat_id w = (inl e, w1).
Proof.
  intros H C P. unfold main_try, bind, lift. rewrite H, C, P. reflexivity.
Qed.

Lemma main_on_failure env w e w1 :
  credentials_missing env = false ->
  main_try env (bot_token_of env) (chat_id_of env) w = (inl e, w1) ->
  exists w2,
    main env w = (1%nat, w2) /\
    failure_notified env (bot_token_of env) (chat_id_of env) e w1 w2.
Proof.
  unfold credentials_missing, bot_token_of, chat_id_of. intros Hc Ht.
  unfold main. rewrite Hc, Ht. apply main_except_notifies.
Qed.

Lemma failure_text_has_error e : contains (str_exn e) (failure_text e) = true.
Proof. unfold failure_text. apply contains_end. Qed.

(** C8: when the body of the [try] raises [e] after the credentials were
    found, [main] calls [send_telegram] once with a text that contains
    [str(e)]; whether that call succeeds or raises after its three attempts,
    [main] ends with exit code 1, and a raise only adds a log line. *)
Theorem secondary_failure_swallowed (env : Env) (w w1 : World) (e : exn) :
  credentials_missing env = false ->
  main_try env (bot_token_of env) (chat_id_of env) w = (inl e, w1) ->
  contains (str_exn e) (failure_text e) = true /\
  exists w2,
    main env w = (1%nat, w2) /\
    failure_notified env (bot_token_of env) (chat_id_of env) e w1 w2.
Proof.
  intros Hc Ht. split; [apply failure_text_has_error|].
  apply main_on_failure; assumption.
Qed.

Lemma secondary_failure_swallowed_witness :
  fst (main env_nan world0) = 1%nat.
Proof.
  edestruct (secondary_failure_swallowed env_nan world0) as (_ & w2 & Hm & _).
  - reflexivity.
  - vm_compute. reflexivity.
  - rewrite Hm. reflexivity.
Defined.

Lemma concat_axis1_combine (a b : Series) :
  List.length a = List.length b ->
  concat_axis1 a b = combine (index a) (combine (values a) (values b)).
Proof.
  revert b. induction a as [|[t x] a IH]; intros [|[u y] b] H;
    simpl in H; try discriminate; [reflexivity|].
  cbn [concat_axis1 index values map combine fst snd].
  f_equal. apply IH. lia.
Qed.

Lemma dropna_keeps_defined (df : Joined) row :
  In row (dropna df) <-> In row df /\ row_defined row = true.
Proof. apply filter_In. Qed.

(** C6: the joined frame has, date by date, the fetched value and its
    average side by side, and after dropping it keeps, in order, exactly the
    rows in which both values are defined; when it is empty, no message is built, the RuntimeError reaches
    the handler of [main] before any POST, the failure is notified once and
    the exit code is 1; and the same happens, with the fetch error, when all
    three downloads return an empty frame. *)
Theorem empty_join_is_fatal (env : Env) (w : World) :
  credentials_missing env = false ->
  (forall vix vix_ewma,
     compute_ewma vix default_lambda = inr vix_ewma ->
     index vix_ewma = index vix /\
     concat_axis1 vix vix_ewma =
       combine (index vix) (combine (values vix) (values vix_ewma)) /\
     dropna (concat_axis1 vix vix_ewma) =
       filter (fun row => is_observation (fst (snd row))
                          && is_observation (snd (snd row)))
         (combine (index vix) (combine (values vix) (values vix_ewma)))) /\
  (forall vix vix_ewma row,
     In row (dropna (concat_axis1 vix vix_ewma)) <->
     In row (concat_axis1 vix vix_ewma) /\
     is_observation (fst (snd row)) = true /\
     is_observation (snd (snd row)) = true) /\
  (forall vix w1 vix_ewma,
     fetch_vix env (DEFAULT_START env) w = (inr (Some vix), w1) ->
     compute_ewma vix default_lambda = inr vix_ewma ->
     dropna (concat_axis1 vix vix_ewma) = [] ->
     let e := RuntimeError "Resulting DataFrame empty after dropping NA" in
     prepare vix vix_ewma = inl e /\
     posts w1 = posts w /\
     exists w2,
       main env w = (1%nat, w2) /\
       failure_notified env (bot_token_of env) (chat_id_of env) e w1 w2) /\
  ((forall k, (k < 3)%nat ->
      exists df, yf_download env (downloads w + k) = inr df /\
                 df_empty df = true) ->
   let e := RuntimeError "VIX data missing 'Close' or empty" in
   exists w1 w2,
     fetch_vix env (DEFAULT_START env) w = (inl e, w1) /\
     posts w1 = posts w /\
     main env w = (1%nat, w2) /\
     failure_notified env (bot_token_of env) (chat_id_of env) e w1 w2).
Proof.
  intros Hc. split; [|split; [|split]].
  - intros vix vix_ewma Hrun.
    destruct (compute_ewma_shape vix default_lambda eq_refl eq_refl)
      as (out & Hrun' & Hidx & Hlen & _).
    assert (E : out = vix_ewma) by congruence. subst out.
    split; [exact Hidx|].
    rewrite (concat_axis1_combine vix vix_ewma) by (symmetry; exact Hlen).
    split; reflexivity.
  - intros vix vix_ewma row. rewrite dropna_keeps_defined.
    unfold row_defined. rewrite andb_true_iff. reflexivity.
  - intros vix w1 vix_ewma Hf Hewma Hempty e.
    assert (Hp : prepare vix vix_ewma = inl e).
    { unfold prepare. rewrite Hempty. reflexivity. }
    split; [exact Hp|].
    pose proof (fetch_vix_policy env (DEFAULT_START env) w) as P.
    rewrite Hf in P. destruct P as (_ & _ & _ & _ & _ & Hposts).
    split; [exact Hposts|].
    apply main_on_failure; [exact Hc|].
    exact (main_try_prepare_raises _ _ _ _ _ _ _ _ Hf Hewma Hp).
  - intros Hall e.
    pose proof (fetch_vix_policy env (DEFAULT_START env) w) as P.
    destruct (fetch_vix env (DEFAULT_START env) w) as [r w1] eqn:Hf.
    destruct P as (used & io & Hout & _ & _ & Hposts).
    unfold retry_outcome in Hout.
    destruct (Hall 0%nat ltac:(lia)) as (df0 & E0 & B0).
    destruct (Hall 1%nat ltac:(lia)) as (df1 & E1 & B1).
    destruct (Hall 2%nat ltac:(lia)) as (df2 & E2 & B2).
    rewrite Nat.add_0_r in E0.
    replace (downloads w + 1)%nat with (S (downloads w)) in E1 by lia.
    replace (downloads w + 2)%nat with (S (S (downloads w))) in E2 by lia.
    rewrite E0, E1, E2 in Hout.
    rewrite !fetch_error_invalid in Hout by (left; assumption).
    destruct Hout as (-> & _).
    exists w1. 
    destruct (main_on_failure env w e w1 Hc
                (main_try_fetch_raises _ _ _ _ _ _ Hf)) as (w2 & Hm & Hn).
    exists w2. repeat split; assumption.
Qed.

Lemma empty_join_is_fatal_witness :
  fst (main env_nan world0) = 1%nat /\ fst (main env_empty world0) = 1%nat.
Proof.
  destruct (empty_join_is_fatal env_nan world0 eq_refl)
    as (_ & _ & Hjoin & _).
  destruct (empty_join_is_fatal env_empty world0 eq_refl)
    as (_ & _ & _ & Hfetch).
  split.
  - edestruct Hjoin as (_ & _ & w2 & Hm & _).
    + vm_compute. reflexivity.
    + vm_compute. reflexivity.
    + reflexivity.
    + rewrite Hm. reflexivity.
  - destruct Hfetch as (w1 & w2 & _ & _ & Hm & _).
    + intros k _. exists frame_empty. split; reflexivity.
    + rewrite Hm. reflexivity.
Defined.

(** ** The latest row *)

Lemma ewm_step_keeps_defined cm f a st w cur :
  weighted st = Some w -> (1 <= nobs st)%nat ->
  exists w', weighted (ewm_step cm f a st cur) = Some w'
             /\ (1 <= nobs (ewm_step cm f a st cur))%nat.
Proof.
  intros Hw Hn. unfold ewm_step. rewrite Hw.
  destruct cur as [c|]; eexists; cbn [weighted nobs]; split;
    try reflexivity; lia.
Qed.

Lemma ewm_loop_defined cm f a vals : forall st w,
  weighted st = Some w -> (1 <= nobs st)%nat ->
  forallb is_observation (ewm_loop cm f a st vals) = true.
Proof.
  induction vals as [|cur rest IH]; intros st w Hw Hn; [reflexivity|].
  cbn [ewm_loop forallb].
  destruct (ewm_step_keeps_defined cm f a st w cur Hw Hn) as (w' & Hw' & Hn').
  rewrite (IH _ w' Hw' Hn'), andb_true_r.
  unfold ewm_output, ewm_minp. rewrite Hw'.
  destruct (Nat.leb_spec 1 (nobs (ewm_step cm f a st cur))); [reflexivity|lia].
Qed.

Lemma ewm_kernel_defined com vals :
  forallb is_observation vals = true ->
  forallb is_observation (ewm_kernel com vals) = true.
Proof.
  destruct vals as [|[x0|] rest]; intros H; try reflexivity; [|discriminate H].
  cbn [ewm_kernel is_observation forallb].
  rewrite (ewm_loop_defined _ _ _ rest (mkEwm (Some x0) 1 1) x0 eq_refl (le_n 1)).
  reflexivity.
Qed.

Lemma concat_axis1_app (a b a' b' : Series) :
  List.length a = List.length b ->
  concat_axis1 (a ++ a') (b ++ b') = concat_axis1 a b ++ concat_axis1 a' b'.
Proof.
  revert b. induction a as [|[t x] a IH]; intros [|[u y] b] H;
    simpl in H; try discriminate; [reflexivity|].
  cbn [app concat_axis1]. rewrite IH by lia. reflexivity.
Qed.

Lemma concat_axis1_defined (a b : Series) :
  List.length a = List.length b ->
  all_defined a = true -> all_defined b = true ->
  forallb row_defined (concat_axis1 a b) = true.
Proof.
  unfold all_defined, values.
  revert b. induction a as [|[t x] a IH]; intros [|[u y] b] H Ha Hb;
    simpl in H; try discriminate; [reflexivity|].
  simpl in Ha, Hb |- *. apply andb_true_iff in Ha as [Hx Ha].
  apply andb_true_iff in Hb as [Hy Hb].
  unfold row_defined at 1. cbn [fst snd]. rewrite Hx, Hy, IH by (auto; lia).
  reflexivity.
Qed.

Lemma filter_all {A} (p : A -> bool) (l : list A) :
  forallb p l = true -> filter p l = l.
Proof.
  induction l as [|x l IH]; simpl; [reflexivity|].
  intros H. apply andb_true_iff in H as [Hx Hl].
  rewrite Hx, (IH Hl). reflexivity.
Qed.

Lemma iloc_last_snoc (df : Joined) row : iloc_last (df ++ [row]) = inr row.
Proof. unfold iloc_last. rewrite rev_unit. reflexivity. Qed.

Lemma series_snoc (s : Series) (n : nat) :
  List.length s = S n ->
  exists front t y, s = front ++ [(t, y)] /\ List.length front = n.
Proof.
  intros H. destruct (exists_last (l := s)) as (front & [t y] & E).
  - intros ->. discriminate H.
  - exists front, t, y. split; [exact E|].
    rewrite E, length_app in H. simpl in H. lia.
Qed.

(** C10: for a series whose values are all defined, ending in the row of
    date [t] and value [x], the smoothed series is defined everywhere,
    dropping undefined rows removes nothing, and the latest row of the joined
    frame carries [t] and [x]; the message is built from them. *)
Theorem latest_row_of_defined_series (front : Series) (t : Timestamp) (x : float) :
  let vix := front ++ [(t, x)] in
  all_defined vix = true ->
  exists vix_ewma y,
    compute_ewma vix default_lambda = inr vix_ewma /\
    all_defined vix_ewma = true /\
    dropna (concat_axis1 vix vix_ewma) = concat_axis1 vix vix_ewma /\
    List.length (dropna (concat_axis1 vix vix_ewma)) = List.length vix /\
    iloc_last (dropna (concat_axis1 vix vix_ewma)) = inr (t, (x, y)) /\
    prepare vix vix_ewma =
      inr (strftime_Ymd t,
           create_message (strftime_Ymd t) x y (int_of_bool (float_gt x y))).
Proof.
  intros vix Hdef.
  destruct (compute_ewma_shape vix default_lambda eq_refl eq_refl)
    as (out & Hrun & Hidx & Hlen & Hval).
  assert (Hout : all_defined out = true).
  { unfold all_defined. rewrite Hval. apply ewm_kernel_defined. exact Hdef. }
  assert (Lv : List.length vix = S (List.length front)).
  { unfold vix. rewrite length_app. simpl. lia. }
  destruct (series_snoc out (List.length front) ltac:(lia))
    as (efront & t' & y & Eout & Lf).
  assert (Ejoin : concat_axis1 vix out
                  = concat_axis1 front efront ++ [(t, (x, y))]).
  { unfold vix. rewrite Eout. rewrite concat_axis1_app by lia. reflexivity. }
  assert (Hall : forallb row_defined (concat_axis1 vix out) = true)
    by (apply concat_axis1_defined; [lia|assumption|assumption]).
  assert (Hdrop : dropna (concat_axis1 vix out) = concat_axis1 vix out)
    by (apply filter_all; exact Hall).
  exists out, y. split; [exact Hrun|]. split; [exact Hout|].
  split; [exact Hdrop|]. split.
  { rewrite Hdrop, Ejoin, length_app. simpl.
    assert (forall a b : Series, List.length a = List.length b ->
              List.length (concat_axis1 a b) = List.length a) as L.
    { induction a as [|[? ?] a IH]; intros [|[? ?] b] H; simpl in *;
        try discriminate; [reflexivity|]. rewrite IH; lia. }
    rewrite L by lia. lia. }
  split.
  { rewrite Hdrop, Ejoin. apply iloc_last_snoc. }
  unfold prepare. rewrite Hdrop, Ejoin.
  destruct (concat_axis1 front efront ++ [(t, (x, y))]) eqn:E.
  { destruct (concat_axis1 front efront); discriminate E. }
  rewrite <- E, iloc_last_snoc. reflexivity.
Qed.

Lemma latest_row_of_defined_series_witness :
  exists vix_ewma y,
    iloc_last (dropna (concat_axis1 (scenario_A (jan 2) (jan 3) (jan 4)) vix_ewma))
      = inr (jan 4, (Some (18 # 1), y)).
Proof.
  destruct (latest_row_of_defined_series
              [(jan 2, Some (20 # 1)); (jan 3, Some (22 # 1))]
              (jan 4) (Some (18 # 1)) eq_refl)
    as (vix_ewma & y & _ & _ & _ & _ & Hlast & _).
  exists vix_ewma, y. exact Hlast.
Defined.

(** * Further properties of the code *)

(** ** Smoothing: gaps, prefixes, constant series *)

Lemma ewm_kernel_as_loop com vals :
  ewm_kernel com vals =
  ewm_loop com (1 - 1 / (1 + com)) (1 / (1 + com)) ewm_start vals.
Proof. destruct vals as [|[x0|] rest]; reflexivity. Qed.

Lemma ewm_loop_app cm f a xs ys : forall st,
  ewm_loop cm f a st (xs ++ ys) =
  ewm_loop cm f a st xs ++ ewm_loop cm f a (fold_left (ewm_step cm f a) xs st) ys.
Proof.
  induction xs as [|x xs IH]; intros st; [reflexivity|].
  cbn [app ewm_loop fold_left]. rewrite IH. reflexivity.
Qed.

Lemma ewm_loop_length cm f a vals : forall st,
  List.length (ewm_loop cm f a st vals) = List.length vals.
Proof.
  induction vals as [|v vals IH]; intros st; [reflexivity|].
  cbn [ewm_loop List.length]. rewrite IH. reflexivity.
Qed.

Lemma ewm_kernel_prefix com xs ys :
  firstn (List.length xs) (ewm_kernel com (xs ++ ys)) = ewm_kernel com xs.
Proof.
  rewrite !ewm_kernel_as_loop, ewm_loop_app.
  rewrite <- (ewm_loop_length com (1 - 1 / (1 + com)) (1 / (1 + com)) xs ewm_start)
    at 1.
  rewrite firstn_app, firstn_all, Nat.sub_diag, firstn_O. apply app_nil_r.
Qed.

Lemma firstn_combine {A B} (n : nat) (l : list A) (l' : list B) :
  firstn n (combine l l') = combine (firstn n l) (firstn n l').
Proof.
  revert l l'. induction n as [|n IH]; intros [|x l] [|y l']; simpl;
    try reflexivity.
  rewrite IH. reflexivity.
Qed.

(** X5: smoothing looks only backwards: the smoothed series of a prefix is
    the prefix of the smoothed series, so later rows never change earlier
    averages. *)
Theorem compute_ewma_prefix (a b : Series) (lambda_ : Q) (out : Series) :
  compute_ewma (a ++ b) lambda_ = inr out ->
  compute_ewma a lambda_ = inr (firstn (List.length a) out).
Proof.
  unfold compute_ewma, ewm_mean.
  destruct (get_center_of_mass (1 - lambda_)) as [e|com]; [discriminate|].
  intros H. injection H as <-. f_equal.
  rewrite firstn_combine. unfold index, values. rewrite !map_app.
  rewrite <- (length_map fst a) at 1.
  rewrite firstn_app, firstn_all, Nat.sub_diag, firstn_O, app_nil_r.
  rewrite <- (length_map snd a).
  rewrite ewm_kernel_prefix. reflexivity.
Qed.

Lemma compute_ewma_prefix_witness :
  exists out,
    compute_ewma (scenario_A (jan 2) (jan 3) (jan 4)) default_lambda = inr out
    /\ compute_ewma [(jan 2, Some (20 # 1)); (jan 3, Some (22 # 1))]
         default_lambda = inr (firstn 2 out).
Proof.
  eexists. split; [vm_compute; reflexivity|].
  apply (compute_ewma_prefix
           [(jan 2, Some (20 # 1)); (jan 3, Some (22 # 1))]
           [(jan 4, Some (18 # 1))] default_lambda).
  vm_compute. reflexivity.
Defined.

Lemma ewm_step_consistent cm f a st cur :
  ewm_consistent st ->
  ewm_consistent (ewm_step cm f a st cur) /\
  is_observation (weighted (ewm_step cm f a st cur))
  = is_observation (weighted st) || is_observation cur.
Proof.
  unfold ewm_consistent, ewm_step. intros H.
  destruct (weighted st) as [w|], cur as [c|]; cbn [weighted nobs is_observation] in *.
  - split; [|reflexivity]. symmetry. apply Nat.leb_le.
    symmetry in H. apply Nat.leb_le in H. lia.
  - split; [|reflexivity]. rewrite Nat.add_0_r. exact H.
  - split; [|reflexivity]. symmetry. apply Nat.leb_le. lia.
  - split; [|reflexivity]. rewrite Nat.add_0_r. exact H.
Qed.

Lemma ewm_loop_seen cm f a vals : forall st,
  ewm_consistent st ->
  map is_observation (ewm_loop cm f a st vals)
  = seen_so_far (is_observation (weighted st)) vals.
Proof.
  induction vals as [|v vals IH]; intros st H; [reflexivity|].
  cbn [ewm_loop map seen_so_far].
  destruct (ewm_step_consistent cm f a st v H) as [H' E].
  rewrite (IH _ H'), E. f_equal.
  unfold ewm_output, ewm_minp. unfold ewm_consistent in H'.
  rewrite <- H', E.
  destruct (weighted (ewm_step cm f a st v)) eqn:W; simpl in E;
    rewrite <- E; reflexivity.
Qed.

Lemma seen_so_far_nth vals : forall seen i,
  (i < List.length vals)%nat ->
  nth i (seen_so_far seen vals) false
  = seen || existsb is_observation (firstn (S i) vals).
Proof.
  induction vals as [|v vals IH]; intros seen i Hi; simpl in Hi; [lia|].
  destruct i as [|i].
  - simpl. rewrite orb_false_r. reflexivity.
  - cbn [seen_so_far nth]. rewrite IH by lia.
    cbn [firstn existsb]. rewrite orb_assoc. reflexivity.
Qed.

(** X6: the smoothed value of a row is defined exactly when that row or an
    earlier one has a defined input: leading gaps stay undefined, later gaps
    are filled. *)
Theorem ewma_defined_after_first_observation (s : Series) (lambda_ : Q)
  (out : Series) (i : nat) :
  compute_ewma s lambda_ = inr out ->
  (i < List.length s)%nat ->
  is_observation (nth i (values out) NaN)
  = existsb is_observation (firstn (S i) (values s)).
Proof.
  unfold compute_ewma, ewm_mean.
  destruct (get_center_of_mass (1 - lambda_)) as [e|com]; [discriminate|].
  intros H Hi. injection H as <-.
  rewrite values_combine
    by (rewrite ewm_kernel_length; apply values_length).
  rewrite ewm_kernel_as_loop.
  rewrite <- (map_nth is_observation).
  rewrite ewm_loop_seen by reflexivity.
  change (is_observation NaN) with false.
  change (is_observation (weighted ewm_start)) with false.
  rewrite seen_so_far_nth by (rewrite values_length; exact Hi).
  reflexivity.
Qed.

Lemma ewma_defined_after_first_observation_witness :
  exists out,
    compute_ewma series_with_gaps default_lambda = inr out /\
    is_observation (nth 0 (values out) NaN) = false /\
    is_observation (nth 2 (values out) NaN) = true.
Proof.
  eexists. split; [vm_compute; reflexivity|]. split.
  - rewrite (ewma_defined_after_first_observation series_with_gaps
               default_lambda _ 0); [reflexivity|vm_compute; reflexivity|].
    simpl. lia.
  - rewrite (ewma_defined_after_first_observation series_with_gaps
               default_lambda _ 2); [reflexivity|vm_compute; reflexivity|].
    simpl. lia.
Defined.

(** *** Constant series *)

Lemma ewm_loop_constant cm f a v vals : forall st,
  weighted st = Some v -> (1 <= nobs st)%nat ->
  Forall (nan_or v) vals ->
  ewm_loop cm f a st vals = repeat (Some v) (List.length vals).
Proof.
  induction vals as [|x vals IH]; intros st Hw Hn Hall; [reflexivity|].
  inversion Hall as [|? ? Hx Hrest]; subst.
  cbn [ewm_loop List.length repeat].
  assert (Hw' : weighted (ewm_step cm f a st x) = Some v
                /\ (1 <= nobs (ewm_step cm f a st x))%nat).
  { unfold ewm_step. rewrite Hw. destruct x as [c|]; cbn [weighted nobs].
    - simpl in Hx. assert (Qeq_bool v c = true) as ->
        by (apply Qeq_bool_iff; symmetry; exact Hx).
      split; [reflexivity|lia].
    - split; [reflexivity|lia]. }
  destruct Hw' as [Hw' Hn'].
  rewrite (IH _ Hw' Hn' Hrest). f_equal.
  unfold ewm_output, ewm_minp. rewrite Hw'.
  destruct (Nat.leb_spec 1 (nobs (ewm_step cm f a st x))); [reflexivity|lia].
Qed.

(** X3: a series that starts with the value [v] and then only has values
    equal to [v], or gaps, is smoothed to [v] on every row, exactly, for
    every accepted decay parameter. *)
Theorem ewma_of_constant_series (t : Timestamp) (v : Q) (rest : Series)
  (lambda_ : Q) (out : Series) :
  compute_ewma ((t, Some v) :: rest) lambda_ = inr out ->
  Forall (nan_or v) (values rest) ->
  values out = repeat (Some v) (S (List.length rest)).
Proof.
  unfold compute_ewma, ewm_mean.
  destruct (get_center_of_mass (1 - lambda_)) as [e|com]; [discriminate|].
  set (s := (t, Some v) :: rest).
  intros H Hall.
  assert (E : out = combine (index s) (ewm_kernel com (values s)))
    by congruence.
  rewrite E. clear E H.
  rewrite values_combine
    by (rewrite ewm_kernel_length; apply values_length).
  unfold s. cbn [values map snd ewm_kernel is_observation repeat]. f_equal.
  fold (values rest).
  rewrite (ewm_loop_constant _ _ _ v (values rest) (mkEwm (Some v) 1 1)
             eq_refl (le_n 1) Hall).
  rewrite values_length. reflexivity.
Qed.

Lemma ewma_of_constant_series_witness :
  exists out,
    compute_ewma series_constant default_lambda = inr out /\
    values out = repeat (Some (20 # 1)) 3.
Proof.
  eexists. split; [vm_compute; reflexivity|].
  apply (ewma_of_constant_series (jan 2) (20 # 1)
           [(jan 3, NaN); (jan 4, Some (40 # 2))] default_lambda).
  - vm_compute. reflexivity.
  - repeat constructor.
Defined.

(** *** No weight on the past *)

Lemma ewma_recurrence_when_defined (s : Series) (lambda_ : Q) (out : Series) :
  0 <= lambda_ -> lambda_ < 1 ->
  compute_ewma s lambda_ = inr out ->
  all_defined s = true ->
  all_defined out = true /\
  ewma_recurrence (1 - lambda_) (values s) (values out).
Proof.
  intros H0 H1 Hrun Hall.
  unfold compute_ewma, ewm_mean in Hrun.
  rewrite get_center_of_mass_ok in Hrun by lra.
  set (com := (1 - (1 - lambda_)) / (1 - lambda_)) in *.
  assert (E : out = combine (index s) (ewm_kernel com (values s)))
    by congruence.
  rewrite E. clear E Hrun. unfold all_defined.
  rewrite values_combine
    by (rewrite ewm_kernel_length; apply values_length).
  split; [apply ewm_kernel_defined; exact Hall|].
  unfold ewma_recurrence.
  split; [apply ewm_kernel_length|]. split; [apply ewm_kernel_first|].
  intros i Hi. unfold all_defined in Hall.
  destruct (values s) as [|v0 rest] eqn:Ev; simpl in Hi; [lia|].
  simpl in Hall. apply andb_true_iff in Hall as [H0' Hall].
  destruct v0 as [x0|]; [|discriminate].
  destruct i as [|i]; [lia|].
  cbn [ewm_kernel is_observation].
  assert (Ha : 1 / (1 + com) == 1 - lambda_)
    by (apply alpha_of_com; intros K; lra).
  assert (Hf : 1 - 1 / (1 + com) == 1 - (1 - lambda_))
    by (rewrite Ha; reflexivity).
  replace (ewm_output {| weighted := Some x0; old_wt := 1; nobs := 1 |})
    with (Some x0) by reflexivity.
  cbn [nth]. replace (S i - 1)%nat with i by lia.
  apply (ewm_loop_recurrence _ _ _ (1 - lambda_) Hf Ha rest
           (mkEwm (Some x0) 1 1) x0 Hall eq_refl eq_refl (le_n 1) i).
  lia.
Qed.

Lemma nth_defined (vals : list float) (i : nat) :
  forallb is_observation vals = true -> (i < List.length vals)%nat ->
  exists q, nth i vals NaN = Some q.
Proof.
  revert i. induction vals as [|v vals IH]; intros i H Hi; simpl in Hi; [lia|].
  simpl in H. apply andb_true_iff in H as [Hv H].
  destruct i as [|i]; [|apply IH; [exact H|lia]].
  destruct v as [q|]; [exists q; reflexivity|discriminate].
Qed.

(** X2: with lambda = 0 the past has no weight: on a series whose values are
    all defined, the smoothed series has the same index and the same
    values. *)
Theorem ewma_with_lambda_zero (s : Series) (out : Series) :
  compute_ewma s 0 = inr out ->
  all_defined s = true ->
  index out = index s /\ Forall2 float_eq (values out) (values s).
Proof.
  intros Hrun Hall.
  destruct (ewma_recurrence_when_defined s 0 out ltac:(lra) ltac:(lra) Hrun Hall)
    as (Hout & Hlen & Hfirst & Hrec).
  split.
  { unfold compute_ewma, ewm_mean in Hrun.
    destruct (get_center_of_mass (1 - 0)) as [e|com]; [discriminate|].
    assert (E : out = combine (index s) (ewm_kernel com (values s)))
      by congruence.
    rewrite E. apply index_combine.
    rewrite ewm_kernel_length. apply values_length. }
  assert (forall i, (i < List.length (values s))%nat ->
            float_eq (nth i (values out) NaN) (nth i (values s) NaN)) as Hnth.
  { intros i Hi.
    destruct (nth_defined (values s) i Hall Hi) as (x & Ex).
    destruct i as [|j].
    - rewrite Hfirst, Ex. simpl. reflexivity.
    - specialize (Hrec (S j) ltac:(lia)).
      replace (S j - 1)%nat with j in Hrec by lia.
      destruct (nth_defined (values out) (S j) Hout ltac:(lia)) as (y & Ey).
      destruct (nth_defined (values out) j Hout ltac:(lia)) as (p & Ep).
      rewrite Ex, Ey, Ep in *. cbn [fmul fadd float_eq] in *.
      rewrite Hrec. ring. }
  revert Hlen Hnth. generalize (values out) (values s).
  induction l as [|y l IH]; intros [|x l'] Hlen Hnth; simpl in Hlen;
    try discriminate; constructor.
  - apply (Hnth 0%nat). simpl. lia.
  - apply IH; [lia|]. intros i Hi. apply (Hnth (S i)). simpl. lia.
Qed.

Lemma ewma_with_lambda_zero_witness :
  exists out,
    compute_ewma (scenario_A (jan 2) (jan 3) (jan 4)) 0 = inr out /\
    index out = index (scenario_A (jan 2) (jan 3) (jan 4)) /\
    Forall2 float_eq (values out) (values (scenario_A (jan 2) (jan 3) (jan 4))).
Proof.
  eexists. split; [vm_compute; reflexivity|].
  apply ewma_with_lambda_zero; [vm_compute; reflexivity|reflexivity].
Defined.

(** ** The joined frame *)

Lemma ewm_output_after_observation cm f a st c :
  is_observation (ewm_output (ewm_step cm f a st (Some c))) = true.
Proof.
  unfold ewm_output, ewm_minp, ewm_step.
  destruct (weighted st) as [w|]; cbn [weighted nobs is_observation];
    (destruct (Nat.leb_spec 1 (nobs st + 1)); [reflexivity|lia]).
Qed.

Lemma joined_rows_of_loop cm f a (s : Series) : forall st,
  raw_column
    (dropna (concat_axis1 s (combine (index s) (ewm_loop cm f a st (values s)))))
  = defined_rows s.
Proof.
  induction s as [|[t x] s IH]; intros st; [reflexivity|].
  cbn [index values map fst snd ewm_loop combine concat_axis1].
  fold (index s). fold (values s).
  unfold dropna, defined_rows. cbn [filter]. unfold row_defined at 1.
  cbn [fst snd].
  destruct x as [c|]; cbn [is_observation andb].
  - rewrite ewm_output_after_observation. cbn [raw_column map fst snd].
    f_equal. apply IH.
  - apply IH.
Qed.

Lemma joined_rows_of_ewma (s : Series) (lambda_ : Q)
  (out : Series) :
  compute_ewma s lambda_ = inr out ->
  raw_column (dropna (concat_axis1 s out)) = defined_rows s.
Proof.
  unfold compute_ewma, ewm_mean.
  destruct (get_center_of_mass (1 - lambda_)) as [e|com]; [discriminate|].
  intros H.
  assert (E : out = combine (index s) (ewm_kernel com (values s)))
    by congruence.
  rewrite E, ewm_kernel_as_loop. apply joined_rows_of_loop.
Qed.

(** X8: after joining the fetched series with its average and dropping
    undefined rows, the frame holds exactly the rows of the fetched series
    whose value is defined, in order, with their dates and values. *)
Theorem joined_frame_keeps_defined_rows (s : Series) (lambda_ : Q)
  (out : Series) :
  compute_ewma s lambda_ = inr out ->
  raw_column (dropna (concat_axis1 s out)) = defined_rows s.
Proof. apply joined_rows_of_ewma. Qed.

Lemma joined_frame_keeps_defined_rows_witness :
  exists out,
    compute_ewma series_with_gaps default_lambda = inr out /\
    raw_column (dropna (concat_axis1 series_with_gaps out))
    = [(jan 3, Some (20 # 1))].
Proof.
  eexists. split; [vm_compute; reflexivity|].
  apply (joined_frame_keeps_defined_rows series_with_gaps default_lambda).
  vm_compute. reflexivity.
Defined.

Lemma raw_column_snoc (df : Joined) (front : Series) t x :
  raw_column df = front ++ [(t, x)] ->
  exists df' y, df = df' ++ [(t, (x, y))].
Proof.
  intros H. destruct (exists_last (l := df)) as (df' & [t' [x' y]] & E).
  - intros ->. destruct front; discriminate H.
  - exists df', y. rewrite E in H. unfold raw_column in H.
    rewrite map_app in H. cbn [map fst snd] in H.
    apply app_inj_tail in H as [_ H]. injection H as -> ->. exact E.
Qed.

(** X9: the alert is built from the last row of the fetched series whose
    value is defined, rows with gaps after it being skipped; with no defined
    value at all, the RuntimeError of the empty frame is raised. *)
Theorem alert_is_about_last_defined_row (s out : Series) (lambda_ : Q) :
  compute_ewma s lambda_ = inr out ->
  (defined_rows s = [] ->
   prepare s out =
     inl (RuntimeError "Resulting DataFrame empty after dropping NA")) /\
  (forall front t x,
     defined_rows s = front ++ [(t, x)] ->
     exists y,
       prepare s out =
         inr (strftime_Ymd t,
              create_message (strftime_Ymd t) x y
                (int_of_bool (float_gt x y)))).
Proof.
  intros Hrun.
  pose proof (joined_rows_of_ewma s lambda_ out Hrun) as J.
  split.
  - intros E. rewrite E in J. unfold prepare.
    destruct (dropna (concat_axis1 s out)); [reflexivity|discriminate J].
  - intros front t x E. rewrite E in J.
    destruct (raw_column_snoc _ _ _ _ J) as (df' & y & D).
    exists y. unfold prepare. rewrite D.
    destruct (df' ++ [(t, (x, y))]) eqn:K.
    { destruct df'; discriminate K. }
    rewrite <- K, iloc_last_snoc. reflexivity.
Qed.

Lemma alert_is_about_last_defined_row_witness :
  exists out y,
    compute_ewma series_with_gaps default_lambda = inr out /\
    prepare series_with_gaps out =
      inr (strftime_Ymd (jan 3),
           create_message (strftime_Ymd (jan 3)) (Some (20 # 1)) y
             (int_of_bool (float_gt (Some (20 # 1)) y))).
Proof.
  destruct (compute_ewma series_with_gaps default_lambda) as [e|out] eqn:E;
    [vm_compute in E; discriminate E|].
  destruct (proj2 (alert_is_about_last_defined_row series_with_gaps out
                     default_lambda E) [] (jan 3) (Some (20 # 1)) eq_refl)
    as (y & Hy).
  exists out, y. split; [reflexivity|exact Hy].
Defined.

(** ** Printed numbers, read back *)

(** X10: a finite value printed with [.2f] reads back as a number within
    half a hundredth of it, and as the value itself when the value is a
    whole number of hundredths. *)
Theorem printed_value_is_nearest_hundredth (q : Q) :
  exists v,
    read_2f (format_2f (Some q)) = Some v /\
    Qabs (v - q) <= 1 # 200 /\
    (forall z : Z, q == z # 100 -> v == q).
Proof.
  eexists. split; [apply read_2f_format_2f|].
  destruct (round_half_even_close (Z.abs (Qnum q) * 100) (Qden q) ltac:(lia))
    as [Hc H]. fold (cents q) in H, Hc.
  generalize dependent (cents q). intros c Hc H.
  assert (Hacc : Qabs ((if (Qnum q <? 0)%Z then - (c # 100) else c # 100) - q)
                 <= 1 # 200).
  { apply Qabs_Qle_condition. destruct q as [a d]. cbn [Qnum Qden] in *.
    destruct (Z.ltb_spec a 0);
      unfold Qle, Qminus, Qplus, Qopp; cbn [Qnum Qden]; split; lia. }
  split; [exact Hacc|].
  intros z Hz. apply Qabs_Qle_condition in Hacc.
  destruct q as [a d]. cbn [Qnum Qden] in *.
  unfold Qeq in Hz. cbn [Qnum Qden] in Hz.
  destruct (Z.ltb_spec a 0);
    unfold Qeq, Qle, Qminus, Qplus, Qopp in *; cbn [Qnum Qden] in *.
  - assert (- c - z = 0)%Z as K; [|nia].
    destruct (Z.eq_dec (- c - z) 0) as [E|E]; [exact E|].
    assert (- c - z <= -1 \/ 1 <= - c - z)%Z as [L|L] by lia; nia.
  - assert (c - z = 0)%Z as K; [|nia].
    destruct (Z.eq_dec (c - z) 0) as [E|E]; [exact E|].
    assert (c - z <= -1 \/ 1 <= c - z)%Z as [L|L] by lia; nia.
Qed.

Lemma printed_value_is_nearest_hundredth_witness :
  exists v,
    read_2f (format_2f (Some (2006 # 100))) = Some v /\ v == 2006 # 100.
Proof.
  destruct (printed_value_is_nearest_hundredth (2006 # 100))
    as (v & Hread & _ & Hexact).
  exists v. split; [exact Hread|]. apply (Hexact 2006%Z). reflexivity.
Defined.

(** ** Retries, seen from the caller *)

Lemma retry_outcome_cases {A} call err (val : nat -> A) n r used io :
  retry_outcome call err val n r used io ->
  (1 <= used <= 3)%nat /\
  (io = [call] \/ io = [call; EvSleep 5; call]
   \/ io = [call; EvSleep 5; call; EvSleep 10; call]) /\
  (forall x, r = inr x ->
     exists k io',
       (k < 3)%nat /\ used = (k + 1)%nat /\ err (n + k)%nat = None /\
       x = Some (val (n + k)%nat) /\ io = io' ++ [call]).
Proof.
  unfold retry_outcome.
  replace (S (S n)) with (n + 2)%nat by lia.
  replace (S n) with (n + 1)%nat by lia.
  destruct (err n) as [e1|] eqn:E1;
    [destruct (err (n + 1)%nat) as [e2|] eqn:E2;
     [destruct (err (n + 2)%nat) as [e3|] eqn:E3|]|];
    intros (-> & -> & ->); (split; [lia|]); (split; [auto|]);
    intros x Hx; try discriminate Hx; injection Hx as <-.
  - exists 2%nat, [call; EvSleep 5; call; EvSleep 10]. repeat split; auto.
  - exists 1%nat, [call; EvSleep 5]. repeat split; auto.
  - exists 0%nat, []. rewrite Nat.add_0_r. repeat split; auto.
Qed.

(** X11: an answer that Telegram accepted but whose body is not JSON counts
    as a failed attempt of [send_telegram]: the same text is posted again
    after the 5 s sleep. *)
Theorem accepted_post_without_json_is_repeated (env : Env)
  (bot_token chat_id text : string) (w : World) (resp : Response) (e : exn) :
  requests_post env (posts w) = inr resp ->
  raise_for_status resp = None ->
  json resp = inl e ->
  exists io,
    io_trace (snd (send_telegram env bot_token chat_id text w)) =
    io_trace w ++
      EvPost (telegram_url bot_token) chat_id text :: EvSleep 5
      :: EvPost (telegram_url bot_token) chat_id text :: io.
Proof.
  intros Hp Hs Hj.
  pose proof (send_telegram_policy env bot_token chat_id text w) as P.
  destruct (send_telegram env bot_token chat_id text w) as [r w'].
  destruct P as (used & io & Hout & Hio & _). cbn [snd]. rewrite Hio.
  unfold retry_outcome, send_error in Hout. rewrite Hp, Hs, Hj in Hout.
  destruct (requests_post env (S (posts w))) as [e2|resp2].
  - destruct (requests_post env (S (S (posts w)))) as [e3|resp3];
      [|destruct (raise_for_status resp3); [|destruct (json resp3)]];
      destruct Hout as (_ & _ & ->); eexists; reflexivity.
  - destruct (raise_for_status resp2); [|destruct (json resp2)].
    3: destruct Hout as (_ & _ & ->); eexists; reflexivity.
    all: destruct (requests_post env (S (S (posts w)))) as [e3|resp3];
      [|destruct (raise_for_status resp3); [|destruct (json resp3)]];
      destruct Hout as (_ & _ & ->); eexists; reflexivity.
Qed.

Lemma accepted_post_without_json_is_repeated_witness :
  exists io,
    io_trace (snd (send_telegram env_not_json "123:abc" "42" "hello" world0)) =
    io_trace world0 ++
      EvPost (telegram_url "123:abc") "42" "hello" :: EvSleep 5
      :: EvPost (telegram_url "123:abc") "42" "hello" :: io.
Proof.
  apply (accepted_post_without_json_is_repeated env_not_json "123:abc" "42"
           "hello" world0 response_not_json
           (mkExn "JSONDecodeError" "Expecting value")); reflexivity.
Defined.

(** ** Logged warnings *)

Lemma warnings_snoc d p t ev :
  warnings (mkWorld d p (t ++ [ev])) =
  warnings (mkWorld d p t) ++ (if is_warning ev then [ev] else []).
Proof. unfold warnings. cbn [trace]. rewrite filter_app. reflexivity. Qed.

Ltac run_warnings :=
  rewrite ?warnings_snoc; cbn [is_warning];
  repeat rewrite <- app_assoc; cbn [app]; rewrite ?app_nil_r.

(** X12: in [fetch_vix] and in [send_telegram] every failed attempt leaves
    one WARNING line with its attempt number and the text of its error, in
    order, and a successful attempt leaves none. *)
Theorem every_failed_attempt_is_logged (env : Env) :
  (forall start w,
     warnings (snd (fetch_vix env start w)) =
     warnings w ++
       retry_warnings fetch_warning
         (fun k => fetch_error (yf_download env k)) (downloads w)) /\
  (forall bot_token chat_id text w,
     warnings (snd (send_telegram env bot_token chat_id text w)) =
     warnings w ++
       retry_warnings send_warning
         (fun k => send_error (requests_post env k)) (posts w)).
Proof.
  split.
  - intros start [d p t].
    unfold fetch_vix, attempts, retry_warnings, fetch_error, fetch_warning.
    cbn [seq RETRIES fetch_loop]. unfold fetch_try. unfold_effects.
    destruct (yf_download env d) as [e1|df1].
    2: destruct (df_empty df1 || negb (in_columns "Close" df1)).
    3: solve [cbn [snd downloads posts trace]; run_warnings; reflexivity].
    all: cbn [Nat.ltb Nat.leb RETRIES RETRY_DELAY Nat.mul Nat.add
                downloads posts trace].
    all: destruct (yf_download env (S d)) as [e2|df2].
    all: try destruct (df_empty df2 || negb (in_columns "Close" df2)).
    all: try solve [cbn [snd downloads posts trace]; run_warnings; reflexivity].
    all: cbn [downloads posts trace].
    all: destruct (yf_download env (S (S d))) as [e3|df3].
    all: try destruct (df_empty df3 || negb (in_columns "Close" df3)).
    all: try solve [cbn [snd downloads posts trace]; run_warnings; reflexivity].
  - intros bot_token chat_id text [d p t].
    unfold send_telegram, attempts, retry_warnings, send_error, send_warning.
    generalize (telegram_url bot_token) as url. intros url.
    cbn [seq RETRIES send_loop]. unfold send_try. unfold_effects.
    destruct (requests_post env p) as [e1|[s1 [x1|] [j1|v1]]];
      cbn [raise_for_status json status_code].
    all: try solve [cbn [snd downloads posts trace]; run_warnings; reflexivity].
    all: cbn [Nat.ltb Nat.leb RETRIES RETRY_DELAY Nat.mul Nat.add
                downloads posts trace].
    all: destruct (requests_post env (S p)) as [e2|[s2 [x2|] [j2|v2]]];
      cbn [raise_for_status json status_code].
    all: try solve [cbn [snd downloads posts trace]; run_warnings; reflexivity].
    all: cbn [downloads posts trace].
    all: destruct (requests_post env (S (S p))) as [e3|[s3 [x3|] [j3|v3]]];
      cbn [raise_for_status json status_code].
    all: try solve [cbn [snd downloads posts trace]; run_warnings; reflexivity].
Qed.

(** ** The whole run *)

Lemma sleep_seconds_app a b :
  sleep_seconds (a ++ b) = (sleep_seconds a + sleep_seconds b)%nat.
Proof.
  induction a as [|[| | |] a IH]; cbn [app sleep_seconds]; lia.
Qed.

Lemma budget_trans env w1 w2 w3 d p s d' p' s' :
  budget env w1 w2 d p s -> budget env w2 w3 d' p' s' ->
  budget env w1 w3 (d + d') (p + p') (s + s').
Proof.
  intros (io & Hio & Hd & Hp & Hs & Ha) (io' & Hio' & Hd' & Hp' & Hs' & Ha').
  exists (io ++ io'). rewrite Hio', Hio, app_assoc, sleep_seconds_app.
  repeat split; try lia. apply Forall_app. split; assumption.
Qed.

Lemma budget_weaken env w w' d p s d' p' s' :
  budget env w w' d p s ->
  (d <= d')%nat -> (p <= p')%nat -> (s <= s')%nat ->
  budget env w w' d' p' s'.
Proof.
  intros (io & Hio & Hd & Hp & Hs & Ha) ? ? ?.
  exists io. repeat split; try assumption; lia.
Qed.

Lemma budget_log env lvl msg w : budget env w (snd (log lvl msg w)) 0 0 0.
Proof.
  destruct w as [d p t]. unfold log, emit. cbn [snd downloads posts trace].
  exists []. rewrite io_trace_snoc_log, app_nil_r.
  cbn [downloads posts sleep_seconds]. repeat split; try lia. constructor.
Qed.

Lemma budget_of_outcome {A} env call err (val : nat -> A) n r used io :
  retry_outcome call err val n r used io ->
  addressed env call -> sleep_seconds [call] = 0%nat ->
  (sleep_seconds io <= 15)%nat /\ Forall (addressed env) io.
Proof.
  intros Hout Hc Hs.
  destruct (retry_outcome_cases _ _ _ _ _ _ _ Hout) as (_ & Hio & _).
  destruct Hio as [-> | [-> | ->]];
    (split; [destruct call; cbn [sleep_seconds] in Hs |- *; lia|]);
    repeat constructor; assumption.
Qed.

Lemma fetch_vix_budget env w :
  budget env w (snd (fetch_vix env (DEFAULT_START env) w)) 3 0 15.
Proof.
  pose proof (fetch_vix_policy env (DEFAULT_START env) w) as P.
  destruct (fetch_vix env (DEFAULT_START env) w) as [r w'].
  destruct P as (used & io & Hout & Hio & Hd & Hp). cbn [snd].
  destruct (retry_outcome_cases _ _ _ _ _ _ _ Hout) as (Hu & _ & _).
  destruct (budget_of_outcome env _ _ _ _ _ _ _ Hout) as [Hs Ha];
    [split; reflexivity|reflexivity|].
  exists io. repeat split; try assumption; lia.
Qed.

Lemma send_telegram_budget env text w :
  budget env w
    (snd (send_telegram env (bot_token_of env) (chat_id_of env) text w))
    0 3 15.
Proof.
  pose proof (send_telegram_policy env (bot_token_of env) (chat_id_of env)
                text w) as P.
  destruct (send_telegram env (bot_token_of env) (chat_id_of env) text w)
    as [r w'].
  destruct P as (used & io & Hout & Hio & Hp & Hd). cbn [snd].
  destruct (retry_outcome_cases _ _ _ _ _ _ _ Hout) as (Hu & _ & _).
  destruct (budget_of_outcome env _ _ _ _ _ _ _ Hout) as [Hs Ha];
    [split; reflexivity|reflexivity|].
  exists io. repeat split; try assumption; lia.
Qed.

(** The body of the [try], step by step. *)
Lemma main_try_run env bot_token chat_id w :
  main_try env bot_token chat_id w =
  let '(fetched, w1) := fetch_vix env (DEFAULT_START env) w in
  match fetched with
  | inl e => (inl e, w1)
  | inr None =>
      (inl (AttributeError "'NoneType' object has no attribute 'ewm'"), w1)
  | inr (Some vix) =>
      match compute_ewma vix default_lambda with
      | inl e => (inl e, w1)
      | inr vix_ewma =>
          match prepare vix vix_ewma with
          | inl e => (inl e, w1)
          | inr dm =>
              let w2 := snd (log INFO ("Prepared message for " ++ fst dm) w1) in
              let '(sent, w3) :=
                send_telegram env bot_token chat_id (snd dm) w2 in
              match sent with
              | inl e => (inl e, w3)
              | inr _ => (inr tt, snd (log INFO "Done" w3))
              end
          end
      end
  end.
Proof.
  unfold main_try, bind, lift, raise.
  destruct (fetch_vix env (DEFAULT_START env) w) as [[e|[vix|]] w1];
    reflexivity.
Qed.

Lemma main_try_budget env w :
  budget env w (snd (main_try env (bot_token_of env) (chat_id_of env) w))
    3 3 30.
Proof.
  rewrite main_try_run.
  pose proof (fetch_vix_budget env w) as F.
  destruct (fetch_vix env (DEFAULT_START env) w) as [[e|[vix|]] w1];
    cbn [snd] in *;
    try (eapply budget_weaken; [exact F|lia|lia|lia]).
  destruct (compute_ewma vix default_lambda) as [e|vix_ewma];
    [eapply budget_weaken; [exact F|lia|lia|lia]|].
  destruct (prepare vix vix_ewma) as [e|dm];
    [eapply budget_weaken; [exact F|lia|lia|lia]|].
  cbv zeta.
  pose proof (budget_log env INFO ("Prepared message for " ++ fst dm) w1) as L.
  set (w2 := snd (log INFO ("Prepared message for " ++ fst dm) w1)) in *.
  pose proof (send_telegram_budget env (snd dm) w2) as S.
  destruct (send_telegram env (bot_token_of env) (chat_id_of env) (snd dm) w2)
    as [[e|j] w3]; cbn [snd] in *.
  - exact (budget_trans _ _ _ _ _ _ _ _ _ _
             (budget_trans _ _ _ _ _ _ _ _ _ _ F L) S).
  - exact (budget_trans _ _ _ _ _ _ _ _ _ _
             (budget_trans _ _ _ _ _ _ _ _ _ _
                (budget_trans _ _ _ _ _ _ _ _ _ _ F L) S)
             (budget_log env INFO "Done" w3)).
Qed.

Lemma main_except_budget env e w :
  budget env w
    (snd (main_except env (bot_token_of env) (chat_id_of env) e w)) 0 3 15.
Proof.
  unfold main_except.
  pose proof (budget_log env ERROR "Unhandled error in vix_alert" w) as L.
  destruct (log ERROR "Unhandled error in vix_alert" w) as [u w1].
  cbn [snd] in L. unfold try_except, bind.
  pose proof (send_telegram_budget env (failure_text e) w1) as S.
  destruct (send_telegram env (bot_token_of env) (chat_id_of env)
              (failure_text e) w1) as [[x|j] w2]; cbn [snd] in S.
  - pose proof (budget_log env ERROR
                  "Also failed to send failure message to Telegram" w2) as L2.
    destruct (log ERROR "Also failed to send failure message to Telegram" w2)
      as [u2 w3]. cbn [snd] in *.
    exact (budget_trans _ _ _ _ _ _ _ _ _ _
             (budget_trans _ _ _ _ _ _ _ _ _ _ L S) L2).
  - unfold ret. cbn [snd].
    exact (budget_trans _ _ _ _ _ _ _ _ _ _ L S).
Qed.

(** X13: a run of [main] makes at most 3 downloads and 6 POSTs and sleeps
    at most 45 seconds in all; every download asks for ^VIX from the start
    date, every POST goes to the sendMessage URL of the bot token with the
    chat id; the exit code is 0, 1 or 2. *)
Theorem main_stays_within_budget (env : Env) (w : World) :
  budget env w (snd (main env w)) 3 6 45 /\
  (fst (main env w) = 0 \/ fst (main env w) = 1 \/ fst (main env w) = 2)%nat.
Proof.
  unfold main.
  destruct (missing (getenv env "TELEGRAM_BOT_TOKEN")
            || missing (getenv env "TELEGRAM_CHAT_ID")).
  - pose proof (budget_log env ERROR
      "Missing TELEGRAM_BOT_TOKEN or TELEGRAM_CHAT_ID environment variables"
      w) as L.
    destruct (log ERROR _ w) as [u w1]. cbn [fst snd] in *.
    split; [|auto]. eapply budget_weaken; [exact L|lia|lia|lia].
  - pose proof (main_try_budget env w) as T.
    unfold bot_token_of, chat_id_of in T.
    destruct (main_try env _ _ w) as [[e|u] w1]; cbn [fst snd] in *.
    + pose proof (main_except_budget env e w1) as X.
      unfold bot_token_of, chat_id_of in X.
      destruct (main_except_notifies env
                  (env_string (getenv env "TELEGRAM_BOT_TOKEN"))
                  (env_string (getenv env "TELEGRAM_CHAT_ID")) e w1)
        as (w2 & E & _).
      rewrite E in *. cbn [fst snd] in *. split; [|auto].
      exact (budget_trans _ _ _ _ _ _ _ _ _ _ T X).
    + split; [|auto]. eapply budget_weaken; [exact T|lia|lia|lia].
Qed.

(** X14: exit code 0 means the alert went out: the series of a successful
    fetch gave a message, and the last call of the run is a POST of that
    message which Telegram answered without error. *)
Theorem exit_zero_means_alert_delivered (env : Env) (w : World) :
  fst (main env w) = 0%nat ->
  exists vix w1 vix_ewma date_str message io k,
    fetch_vix env (DEFAULT_START env) w = (inr (Some vix), w1) /\
    compute_ewma vix default_lambda = inr vix_ewma /\
    prepare vix vix_ewma = inr (date_str, message) /\
    (k < 3)%nat /\
    send_error (requests_post env (posts w + k)) = None /\
    posts (snd (main env w)) = (posts w + k + 1)%nat /\
    io_trace (snd (main env w)) =
      io_trace w ++ io ++
        [EvPost (telegram_url (bot_token_of env)) (chat_id_of env) message].
Proof.
  unfold main, bot_token_of, chat_id_of.
  destruct (missing (getenv env "TELEGRAM_BOT_TOKEN")
            || missing (getenv env "TELEGRAM_CHAT_ID")).
  { destruct (log ERROR _ w). cbn [fst]. discriminate. }
  set (bt := env_string (getenv env "TELEGRAM_BOT_TOKEN")).
  set (ci := env_string (getenv env "TELEGRAM_CHAT_ID")).
  rewrite main_try_run.
  pose proof (fetch_vix_policy env (DEFAULT_START env) w) as F.
  destruct (fetch_vix env (DEFAULT_START env) w) as [fetched w1].
  destruct F as (used1 & io1 & _ & Hio1 & _ & Hp1).
  cbv iota beta.
  assert (Hfail : forall e w',
            fst (main_except env bt ci e w') = 0%nat -> False).
  { intros e w' K. destruct (main_except_notifies env bt ci e w')
      as (w2 & E & _). rewrite E in K. discriminate K. }
  destruct fetched as [e|[vix|]]; try (intros K; exfalso; exact (Hfail _ _ K)).
  destruct (compute_ewma vix default_lambda) as [e|vix_ewma] eqn:Hewma;
    try (intros K; exfalso; exact (Hfail _ _ K)).
  destruct (prepare vix vix_ewma) as [e|[date_str message]] eqn:Hprep;
    try (intros K; exfalso; exact (Hfail _ _ K)).
  cbv zeta. cbn [fst snd].
  set (w2 := snd (log INFO ("Prepared message for " ++ date_str) w1)).
  assert (Hw2 : io_trace w2 = io_trace w1 /\ posts w2 = posts w1).
  { unfold w2. destruct w1 as [d p t]. unfold log, emit. cbn [snd].
    split; [apply io_trace_snoc_log|reflexivity]. }
  destruct Hw2 as [Hio2 Hp2].
  pose proof (send_telegram_policy env bt ci message w2) as S.
  destruct (send_telegram env bt ci message w2) as [[e|j] w3];
    try (intros K; exfalso; exact (Hfail _ _ K)).
  intros _. destruct S as (used & io & Hout & Hio & Hp & _).
  destruct (retry_outcome_cases _ _ _ _ _ _ _ Hout) as (_ & _ & Hok).
  destruct (Hok j eq_refl) as (k & io' & Hk & -> & Herr & _ & ->).
  exists vix, w1, vix_ewma, date_str, message, (io1 ++ io'), k.
  split; [reflexivity|]. split; [exact Hewma|]. split; [exact Hprep|]. split; [exact Hk|].
  rewrite Hp2, Hp1 in Herr, Hp. split; [exact Herr|].
  destruct w3 as [d3 p3 t3]. unfold log, emit. cbn [snd posts trace downloads].
  cbn [posts] in Hp. split; [lia|].
  rewrite io_trace_snoc_log, Hio, Hio2, Hio1, <- !app_assoc. reflexivity.
Qed.

Lemma exit_zero_means_alert_delivered_witness :
  exists message io,
    io_trace (snd (main env_retry world0)) =
      io_trace world0 ++ io ++
        [EvPost (telegram_url (bot_token_of env_retry)) (chat_id_of env_retry)
           message].
Proof.
  destruct (exit_zero_means_alert_delivered env_retry world0)
    as (vix & w1 & vix_ewma & date_str & message & io & k & _ & _ & _ & _ & _
        & _ & Hio).
  - vm_compute. reflexivity.
  - exists message, io. exact Hio.
Defined.

